(** * Lambda project indexer: a shallow embedding and its properties

    The development follows [python/lambda_indexer.py] (class
    [LambdaProjectIndexer]) and [python/auto_index.py] (class
    [ProjectFileHandler]).

    Conventions of the embedding:
    - a Python [str] holding file content or a query is a list of Unicode
      code points ([text]); paths and dictionary keys are [string]s;
    - a Python [dict] is an association list in insertion order, since
      [search] depends on the iteration order of [self.embeddings];
    - a finite [float] is the rational number it denotes ([Q]); a score of
      [search] is a [pyfloat], which is a finite number, an infinity or
      [nan], and the floating-point operations of numpy that compute it are
      parameters, so that nothing depends on how they round;
    - a call that can raise returns a [result]; a method that mutates
      [self] or the disk returns the new state next to its [result]. *)

From Stdlib Require Import QArith Qabs Qround Ascii String Sorted.
From stdpp Require Import gmap strings list.

Local Open Scope Z_scope.

(** ** Exceptions *)

Inductive exn : Type :=
  | FileNotFoundError (path : string)
  | PermissionError (path : string)
  | KeyError (key : string)
  | ValueError
  | RuntimeError.

Inductive result (A : Type) : Type :=
  | Ok (a : A)
  | Raise (e : exn).
Arguments Ok {A} a.
Arguments Raise {A} e.

#[global] Instance result_ret : MRet result := fun A a => Ok a.
#[global] Instance result_bind : MBind result := fun A B f r =>
  match r with
  | Ok a => f a
  | Raise e => Raise e
  end.

#[global] Instance result_fmap : FMap result := fun A B f r =>
  match r with
  | Ok a => Ok (f a)
  | Raise e => Raise e
  end.

(** ** Python strings *)

Definition char := N.
Definition text := list char.

(** [str.isspace] for one code point: the whitespace characters of the
    Unicode database that CPython uses. *)
Definition isspace (c : char) : bool :=
  ((9 <=? c) && (c <=? 13) || (28 <=? c) && (c <=? 32) ||
   (c =? 133) || (c =? 160) || (c =? 5760) ||
   (8192 <=? c) && (c <=? 8202) ||
   (c =? 8232) || (c =? 8233) || (c =? 8239) || (c =? 8287) ||
   (c =? 12288))%N.

Definition SPACE : text := [32%N].

Fixpoint of_string (s : string) : text :=
  match s with
  | EmptyString => []
  | String a s' => N_of_ascii a :: of_string s'
  end.

Definition flush (word : text) : list text :=
  match word with
  | [] => []
  | _ => [word]
  end.

(** [str.split()] without a separator: runs of whitespace separate the
    words, leading and trailing whitespace is dropped.  [word] is the word
    being scanned. *)
Fixpoint split_from (word : text) (s : text) : list text :=
  match s with
  | [] => flush word
  | c :: s' =>
      if isspace c then flush word ++ split_from [] s'
      else split_from (word ++ [c]) s'
  end.

Definition str_split (s : text) : list text := split_from [] s.

(** [sep.join(parts)] *)
Fixpoint str_join (sep : text) (parts : list text) : text :=
  match parts with
  | [] => []
  | [p] => p
  | p :: ps => p ++ sep ++ str_join sep ps
  end.

(** ** The chunker: [LambdaProjectIndexer._chunk_text] *)

(** The [for word in words] loop, with its two accumulators. *)
Fixpoint chunk_loop (max_length : Z) (words : list text)
    (chunks : list text) (current_chunk : list text) : list text * list text :=
  match words with
  | [] => (chunks, current_chunk)
  | word :: words' =>
      let current_chunk := current_chunk ++ [word] in
      if max_length <=? Z.of_nat (length (str_split (str_join SPACE current_chunk)))
      then chunk_loop max_length words' (chunks ++ [str_join SPACE current_chunk]) []
      else chunk_loop max_length words' chunks current_chunk
  end.

Definition _chunk_text (content : text) (max_length : Z) : list text :=
  let words := str_split content in
  let '(chunks, current_chunk) := chunk_loop max_length words [] [] in
  let chunks :=
    match current_chunk with
    | [] => chunks
    | _ => chunks ++ [str_join SPACE current_chunk]
    end in
  match chunks with
  | [] => [content]
  | _ => chunks
  end.

(** ** Python dictionaries

    Insertion-ordered: assigning to a key that is present keeps its
    position, a new key goes to the end. *)

Definition dict (V : Type) : Type := list (string * V).

Definition dict_keys {V} (d : dict V) : list string := map fst d.

Fixpoint dict_get {V} (d : dict V) (k : string) : option V :=
  match d with
  | [] => None
  | (k', v) :: d' => if String.eqb k k' then Some v else dict_get d' k
  end.

(** [d[k] = v] *)
Fixpoint dict_set {V} (k : string) (v : V) (d : dict V) : dict V :=
  match d with
  | [] => [(k, v)]
  | (k', v') :: d' =>
      if String.eqb k k' then (k, v) :: d' else (k', v') :: dict_set k v d'
  end.

(** [d[k]] as an expression: raises [KeyError] on a missing key. *)
Definition dict_getitem {V} (d : dict V) (k : string) : result V :=
  match dict_get d k with
  | Some v => Ok v
  | None => Raise (KeyError k)
  end.

(** A dict display or comprehension [{k: v for k, v in items}]. *)
Definition dict_of_items {V} (items : list (string * V)) : dict V :=
  fold_left (fun d kv => dict_set (fst kv) (snd kv) d) items [].

(** The representation invariant of a dictionary: no key twice. *)
Definition dict_wf {V} (d : dict V) : Prop := NoDup (dict_keys d).

(** ** numpy arrays

    An array of shape [(1, D)] is the list of its [D] components. *)

Definition ndarray : Type := list Q.

Definition np_add (a b : ndarray) : ndarray := zip_with Qplus a b.

(** [np.add.reduce(arrays, axis=0)] for arrays of one shape. *)
Definition np_sum_axis0 (arrays : list ndarray) : ndarray :=
  match arrays with
  | [] => []
  | a :: rest => fold_left np_add rest a
  end.

(** [np.mean(arrays, axis=0)], also [tensor.mean(dim=1)] on the token
    axis: the sum along the axis divided by the number of arrays. *)
Definition np_mean_axis0 (arrays : list ndarray) : ndarray :=
  map (fun s => s / inject_Z (Z.of_nat (length arrays)))%Q (np_sum_axis0 arrays).

(** ** Floating-point scalars

    A Python [float] or a numpy scalar: a finite number (the rational it
    denotes), an infinity, or [nan]. *)
Inductive pyfloat : Type :=
  | Num (q : Q)
  | PosInf
  | NegInf
  | NaN.

Definition is_nan (x : pyfloat) : bool :=
  match x with
  | NaN => true
  | _ => false
  end.

(** [x < y], [x <= y] and [x == y]; each is [False] as soon as one side is
    [nan]. *)
Definition pyfloat_lt (x y : pyfloat) : bool :=
  match x, y with
  | NaN, _ => false
  | _, NaN => false
  | Num a, Num b => negb (Qle_bool b a)
  | Num _, PosInf => true
  | Num _, NegInf => false
  | PosInf, _ => false
  | NegInf, NegInf => false
  | NegInf, _ => true
  end.

Definition pyfloat_le (x y : pyfloat) : bool :=
  match x, y with
  | NaN, _ => false
  | _, NaN => false
  | Num a, Num b => Qle_bool a b
  | Num _, PosInf => true
  | Num _, NegInf => false
  | PosInf, PosInf => true
  | PosInf, _ => false
  | NegInf, _ => true
  end.

Definition pyfloat_eq (x y : pyfloat) : bool :=
  match x, y with
  | Num a, Num b => Qeq_bool a b
  | PosInf, PosInf => true
  | NegInf, NegInf => true
  | _, _ => false
  end.

(** The floating-point computations of numpy are parameters of the
    development: [np.dot(a, b.T)] for two arrays of one shape [(1, D)],
    as a scalar; [np.linalg.norm(a)]; the product and the quotient of two
    scalars.  Arrays of two different shapes, for which [np.dot] raises,
    are outside the model. *)
Class Numpy : Type := {
  np_dot : ndarray → ndarray → pyfloat;
  np_linalg_norm : ndarray → pyfloat;
  float_mul : pyfloat → pyfloat → pyfloat;
  float_div : pyfloat → pyfloat → pyfloat
}.

(** ** Paths: [os.path] and [pathlib] on POSIX *)

Definition starts_with_sep (p : string) : bool :=
  match p with
  | String c _ => Ascii.eqb c "/"
  | EmptyString => false
  end.

Fixpoint ends_with_sep (p : string) : bool :=
  match p with
  | EmptyString => false
  | String c EmptyString => Ascii.eqb c "/"
  | String _ p' => ends_with_sep p'
  end.

(** [os.path.join(a, b)] *)
Definition os_path_join (a b : string) : string :=
  if starts_with_sep b then b
  else if String.eqb a "" || ends_with_sep a then a +:+ b
  else a +:+ "/" +:+ b.

(** [os.path.relpath(filepath, project_path)] for a [filepath] that
    [os.walk(project_path)] produced: the names of the directories
    descended into and the file name, joined by the separator. *)
Definition relpath_below (dirs : list string) (file : string) : string :=
  String.concat "/" (dirs ++ [file]).

(** [p.split('/')], [cur] being the component under construction. *)
Fixpoint split_sep (cur : string) (p : string) : list string :=
  match p with
  | EmptyString => [cur]
  | String c p' =>
      if Ascii.eqb c "/" then cur :: split_sep "" p'
      else split_sep (cur +:+ String c "") p'
  end.

Definition path_root (p : string) : list string :=
  match p with
  | String "/" (String "/" (String "/" _)) => ["/"]
  | String "/" (String "/" _) => ["//"]
  | String "/" _ => ["/"]
  | _ => []
  end.

(** [PurePosixPath(p).parts] *)
Definition path_parts (p : string) : list string :=
  path_root p ++
  List.filter (fun c => negb (String.eqb c "") && negb (String.eqb c "."))
              (split_sep "" p).

(** [PurePosixPath(p).name] *)
Definition path_name (p : string) : string :=
  match path_root p, last (path_parts p) with
  | [], Some n => n
  | _ :: _, Some n => if (1 <? length (path_parts p))%nat then n else ""
  | _, None => ""
  end.

(** [name.rfind('.')] *)
Fixpoint rfind_dot (name : string) : option nat :=
  match name with
  | EmptyString => None
  | String c name' =>
      match rfind_dot name' with
      | Some i => Some (S i)
      | None => if Ascii.eqb c "." then Some 0%nat else None
      end
  end.

(** [PurePosixPath(p).suffix] *)
Definition path_suffix (p : string) : string :=
  let name := path_name p in
  match rfind_dot name with
  | Some i =>
      if ((0 <? i) && (i <? String.length name - 1))%nat
      then substring i (String.length name - i) name
      else ""
  | None => ""
  end.

Definition str_in (x : string) (xs : list string) : bool :=
  existsb (String.eqb x) xs.

Definition extensions : list string :=
  [".py"; ".md"; ".json"; ".yaml"; ".yml"; ".txt"].

Definition ignored : list string :=
  ["venv"; "__pycache__"; ".git"; "node_modules"; ".venv"].

(** ** The project tree, as [os.walk] sees it *)

#[warnings="-register-all"]
Inductive entry : Type :=
  | File (name : string)
  | Directory (name : string) (children : list entry).

Definition file_names (entries : list entry) : list string :=
  flat_map (fun e => match e with File n => [n] | Directory _ _ => [] end) entries.

(** What the indexer reads: the directory listing below [project_path],
    the outcome of opening and reading a path as text, and the outcome of
    [os.path.getsize]. *)
Record Project : Type := {
  listing : list entry;
  read_text : string → result text;
  getsize : string → result Z
}.

(** One item of [os.walk]: [root], the directory names from the top down
    to [root], and [files]. *)
Record visit : Type := {
  root : string;
  below : list string;
  files : list string
}.

(** [os.walk(top)], top-down, where the caller keeps in [dirs] only the
    names for which [keep] holds.  The first argument of [Directory] is
    the name under which the parent lists it; [top] is its full path. *)
Fixpoint os_walk (keep : string → bool) (top : string) (rel : list string)
    (dir : entry) : list visit :=
  match dir with
  | File _ => []
  | Directory _ children =>
      {| root := top; below := rel; files := file_names children |} ::
      flat_map (fun c =>
                  match c with
                  | Directory name _ =>
                      if keep name
                      then os_walk keep (os_path_join top name) (rel ++ [name]) c
                      else []
                  | File _ => []
                  end) children
  end.

(** ** The indexer object *)

Record FileMeta : Type := {
  absolute_path : string;
  extension : string;
  size : Z
}.

(** [model] stands for the tokenizer followed by the model on one text:
    the rows of [last_hidden_state], one per token, or the exception
    raised. *)
Record LambdaProjectIndexer : Type := {
  model : text → result (list ndarray);
  embeddings : dict ndarray;
  metadata : dict FileMeta
}.

(** [LambdaProjectIndexer.__init__] *)
Definition LambdaProjectIndexer_init (m : text → result (list ndarray)) :
    LambdaProjectIndexer :=
  {| model := m; embeddings := []; metadata := [] |}.

Definition set_embeddings (self : LambdaProjectIndexer) (e : dict ndarray) :=
  {| model := model self; embeddings := e; metadata := metadata self |}.

Definition set_metadata (self : LambdaProjectIndexer) (m : dict FileMeta) :=
  {| model := model self; embeddings := embeddings self; metadata := m |}.

(** The loop of [embed_file] over the chunks. *)
Fixpoint embed_chunks (self : LambdaProjectIndexer) (chunks : list text) :
    result (list ndarray) :=
  match chunks with
  | [] => Ok []
  | chunk :: chunks' =>
      hidden ← model self chunk;
      let embedding := np_mean_axis0 hidden in
      chunk_embeddings ← embed_chunks self chunks';
      mret (embedding :: chunk_embeddings)
  end.

Definition embed_file (self : LambdaProjectIndexer) (proj : Project)
    (filepath : string) : result ndarray :=
  content ← read_text proj filepath;
  let chunks := _chunk_text content 512 in
  chunk_embeddings ← embed_chunks self chunks;
  mret (np_mean_axis0 chunk_embeddings).

Definition _embed_query (self : LambdaProjectIndexer) (query : text) :
    result ndarray :=
  hidden ← model self query;
  mret (np_mean_axis0 hidden).

(** The body of [for file in files] in [index_project], with its
    [try]/[except Exception]. *)
Definition index_file (proj : Project) (v : visit)
    (self : LambdaProjectIndexer) (file : string) : LambdaProjectIndexer :=
  if str_in (path_suffix file) extensions then
    let filepath := os_path_join (root v) file in
    match embed_file self proj filepath with
    | Raise _ => self
    | Ok embedding =>
        let rel_path := relpath_below (below v) file in
        let self := set_embeddings self (dict_set rel_path embedding (embeddings self)) in
        match getsize proj filepath with
        | Raise _ => self
        | Ok sz =>
            set_metadata self
              (dict_set rel_path
                 {| absolute_path := filepath;
                    extension := path_suffix file;
                    size := sz |}
                 (metadata self))
        end
    end
  else self.

(** The outer loop of [index_project] over the items of the walk. *)
Definition index_visits (proj : Project) (visits : list visit)
    (self : LambdaProjectIndexer) : LambdaProjectIndexer :=
  fold_left (fun self v => fold_left (index_file proj v) (files v) self)
            visits self.

(** The items that [index_project] receives from [os.walk], after its
    pruning of [dirs]. *)
Definition project_walk (proj : Project) (project_path : string) : list visit :=
  os_walk (fun d => negb (str_in d ignored)) project_path []
          (Directory "" (listing proj)).

Definition index_project (self : LambdaProjectIndexer) (proj : Project)
    (project_path : string) : LambdaProjectIndexer :=
  index_visits proj (project_walk proj project_path) self.

(** ** [index_project] with what it prints

    [index_file] and [index_project] above leave the two [print] calls
    of the loop out; they are the loop on a standard output that takes
    every message.  A [print] can raise: [UnicodeEncodeError] for a
    character that the encoding of the stream lacks, or for the lone
    surrogate that stands for an undecodable byte of a file name.  Inside
    the [try] that is one more failure of the file.  The [print] of the
    [except] branch is outside every [try]: what it raises leaves
    [index_project]. *)

Inductive message : Type :=
  | Indexed (rel_path : string)
  | Failed (filepath : string) (e : exn).

Module WithPrints.

(** The body of [for file in files]; [print] is [sys.stdout] as the
    two calls see it, [Indexed rel_path] being the text
    [f"✓ Indexed: {rel_path}"] and [Failed filepath e] the text
    [f"✗ Failed: {filepath} - {e}"]. *)
Definition index_file (print : message → result unit) (proj : Project) (v : visit)
    (self : LambdaProjectIndexer) (file : string) :
    LambdaProjectIndexer * result unit :=
  if str_in (path_suffix file) extensions then
    let filepath := os_path_join (root v) file in
    match embed_file self proj filepath with
    | Raise e => (self, print (Failed filepath e))
    | Ok embedding =>
        let rel_path := relpath_below (below v) file in
        let self := set_embeddings self (dict_set rel_path embedding (embeddings self)) in
        match getsize proj filepath with
        | Raise e => (self, print (Failed filepath e))
        | Ok sz =>
            let self :=
              set_metadata self
                (dict_set rel_path
                   {| absolute_path := filepath;
                      extension := path_suffix file;
                      size := sz |}
                   (metadata self)) in
            match print (Indexed rel_path) with
            | Ok _ => (self, Ok tt)
            | Raise e => (self, print (Failed filepath e))
            end
        end
    end
  else (self, Ok tt).

(** [for file in files]: an exception ends the loop. *)
Fixpoint index_files (print : message → result unit) (proj : Project) (v : visit)
    (names : list string) (self : LambdaProjectIndexer) :
    LambdaProjectIndexer * result unit :=
  match names with
  | [] => (self, Ok tt)
  | file :: names' =>
      match index_file print proj v self file with
      | (self, Ok _) => index_files print proj v names' self
      | (self, Raise e) => (self, Raise e)
      end
  end.

(** [for root, dirs, files in os.walk(project_path)] *)
Fixpoint index_visits (print : message → result unit) (proj : Project)
    (visits : list visit) (self : LambdaProjectIndexer) :
    LambdaProjectIndexer * result unit :=
  match visits with
  | [] => (self, Ok tt)
  | v :: visits' =>
      match index_files print proj v (files v) self with
      | (self, Ok _) => index_visits print proj visits' self
      | (self, Raise e) => (self, Raise e)
      end
  end.

Definition index_project (print : message → result unit)
    (self : LambdaProjectIndexer) (proj : Project) (project_path : string) :
    LambdaProjectIndexer * result unit :=
  index_visits print proj (project_walk proj project_path) self.

End WithPrints.

(** The relative paths of all files that a walk lists. *)
Definition walk_paths (visits : list visit) : list string :=
  flat_map (fun v => map (relpath_below (below v)) (files v)) visits.

(** ** Search *)

Record SearchResult : Type := {
  file : string;
  score : pyfloat;
  result_metadata : FileMeta
}.

(** [np.dot(a, b.T) / (np.linalg.norm(a) * np.linalg.norm(b))]; a zero
    norm makes the quotient [nan] or an infinity. *)
Definition cosine `{Numpy} (a b : ndarray) : pyfloat :=
  float_div (np_dot a b) (float_mul (np_linalg_norm a) (np_linalg_norm b)).

(** Python's [<] on two floats that are finite numbers, as the readings of
    [time.time()] are. *)
Definition float_lt (x y : Q) : bool := negb (Qle_bool y x).

(** [sorted(items, key=key, reverse=True)]: the sort is stable, also
    with [reverse=True], and compares keys with [<] only.  For keys none
    of which is [nan] its result is the one of this insertion sort.  With
    a [nan] among the keys [<] is no order: what [sorted] returns then
    depends on the runs that its merge sort finds, and need not be what
    this sort gives. *)
Fixpoint insert_desc {A} (key : A → pyfloat) (x : A) (l : list A) : list A :=
  match l with
  | [] => [x]
  | y :: l' =>
      if pyfloat_lt (key x) (key y) then y :: insert_desc key x l' else x :: l
  end.

Definition sorted_reverse {A} (key : A → pyfloat) (l : list A) : list A :=
  foldr (insert_desc key) [] l.

(** The order of a descending sort by [key]. *)
Definition ge_key {A} (key : A → pyfloat) (a b : A) : Prop :=
  pyfloat_le (key b) (key a) = true.

(** The slice [l[:k]]; a negative [k] counts from the end. *)
Definition slice_to {A} (k : Z) (l : list A) : list A :=
  if 0 <=? k then take (Z.to_nat k) l
  else take (length l - Z.to_nat (- k)) l.

Definition similarities `{Numpy} (query_embedding : ndarray)
    (embs : dict ndarray) : dict pyfloat :=
  fold_left
    (fun sims fe => dict_set (fst fe) (cosine query_embedding (snd fe)) sims)
    embs [].

(** The loop that builds [results]; [self.metadata[filepath]] raises
    [KeyError] at the first path without metadata. *)
Fixpoint collect_results (md : dict FileMeta) (top_files : list (string * pyfloat)) :
    result (list SearchResult) :=
  match top_files with
  | [] => Ok []
  | (filepath, s) :: rest =>
      m ← dict_getitem md filepath;
      results ← collect_results md rest;
      mret ({| file := filepath; score := s; result_metadata := m |} :: results)
  end.

Definition top_files `{Numpy} (self : LambdaProjectIndexer)
    (query_embedding : ndarray) (top_k : Z) : list (string * pyfloat) :=
  slice_to top_k
    (sorted_reverse snd (similarities query_embedding (embeddings self))).

Definition search `{Numpy} (self : LambdaProjectIndexer) (query : text)
    (top_k : Z) : result (list SearchResult) :=
  query_embedding ← _embed_query self query;
  collect_results (metadata self) (top_files self query_embedding top_k).

(** What one entry of [results] is made of. *)
Definition built_from (md : dict FileMeta) (fs : string * pyfloat) (r : SearchResult) : Prop :=
  file r = fst fs ∧ score r = snd fs ∧ dict_get md (fst fs) = Some (result_metadata r).

(** ** Persistence *)

Inductive artifact : Type :=
  | NpzFile (arrays : list (string * ndarray))
  | JsonFile (doc : list (string * FileMeta)).

(** Where the index artifacts live: the files by path, and the paths that
    cannot be opened for writing. *)
Record Disk : Type := {
  disk_files : gmap string artifact;
  disk_locked : gset string
}.

Definition write_file (d : Disk) (path : string) (a : artifact) :
    Disk * result unit :=
  if bool_decide (path ∈ disk_locked d) then (d, Raise (PermissionError path))
  else ({| disk_files := <[path := a]> (disk_files d);
           disk_locked := disk_locked d |}, Ok tt).

(** [np.load(path)]: the arrays of the archive with their names. *)
Definition np_load (d : Disk) (path : string) : result (list (string * ndarray)) :=
  match disk_files d !! path with
  | None => Raise (FileNotFoundError path)
  | Some (NpzFile arrays) => Ok arrays
  | Some (JsonFile _) => Raise ValueError
  end.

(** [json.load(open(path))]: the members of the document, in order. *)
Definition json_load (d : Disk) (path : string) : result (list (string * FileMeta)) :=
  match disk_files d !! path with
  | None => Raise (FileNotFoundError path)
  | Some (JsonFile doc) => Ok doc
  | Some (NpzFile _) => Raise ValueError
  end.

Definition save_index (self : LambdaProjectIndexer) (output_path : string)
    (d : Disk) : Disk * result unit :=
  match write_file d (output_path +:+ "_embeddings.npz")
                   (NpzFile (dict_of_items (embeddings self))) with
  | (d, Raise e) => (d, Raise e)
  | (d, Ok _) =>
      write_file d (output_path +:+ "_metadata.json") (JsonFile (metadata self))
  end.

Definition load_index (self : LambdaProjectIndexer) (input_path : string)
    (d : Disk) : LambdaProjectIndexer * result unit :=
  match np_load d (input_path +:+ "_embeddings.npz") with
  | Raise e => (self, Raise e)
  | Ok data =>
      let self := set_embeddings self (dict_of_items data) in
      match json_load d (input_path +:+ "_metadata.json") with
      | Raise e => (self, Raise e)
      | Ok doc => (set_metadata self (dict_of_items doc), Ok tt)
      end
  end.

(** ** The watcher: [ProjectFileHandler] *)

Record ProjectFileHandler : Type := {
  indexer : LambdaProjectIndexer;
  project_path : string;
  last_reindex : Q;
  reindex_delay : Q
}.

(** [ProjectFileHandler.__init__] *)
Definition ProjectFileHandler_init (idx : LambdaProjectIndexer) (path : string) :
    ProjectFileHandler :=
  {| indexer := idx; project_path := path; last_reindex := 0; reindex_delay := 2 |}.

Record FileSystemEvent : Type := {
  src_path : string;
  is_directory : bool
}.

Definition should_index (filepath : string) : bool :=
  if existsb (fun part => str_in part ignored) (path_parts filepath) then false
  else str_in (path_suffix filepath) extensions.

(** [current_time] is the value that [time.time()] returns when the
    handler runs.  The handler keeps no queue: an event either starts a
    re-index now or leaves no trace. *)
Definition trigger_reindex (self : ProjectFileHandler) (event : FileSystemEvent)
    (current_time : Q) (proj : Project) (d : Disk) : ProjectFileHandler * Disk :=
  if float_lt (current_time - last_reindex self) (reindex_delay self) then (self, d)
  else if should_index (src_path event) then
    let idx := index_project (indexer self) proj (project_path self) in
    match save_index idx "lambda_index" d with
    | (d, Ok _) =>
        ({| indexer := idx; project_path := project_path self;
            last_reindex := current_time;
            reindex_delay := reindex_delay self |}, d)
    | (d, Raise _) =>
        ({| indexer := idx; project_path := project_path self;
            last_reindex := last_reindex self;
            reindex_delay := reindex_delay self |}, d)
    end
  else (self, d).

Definition on_modified (self : ProjectFileHandler) (event : FileSystemEvent)
    (current_time : Q) (proj : Project) (d : Disk) : ProjectFileHandler * Disk :=
  if negb (is_directory event) then trigger_reindex self event current_time proj d
  else (self, d).

Definition on_created (self : ProjectFileHandler) (event : FileSystemEvent)
    (current_time : Q) (proj : Project) (d : Disk) : ProjectFileHandler * Disk :=
  if negb (is_directory event) then trigger_reindex self event current_time proj d
  else (self, d).

Definition on_deleted (self : ProjectFileHandler) (event : FileSystemEvent)
    (current_time : Q) (proj : Project) (d : Disk) : ProjectFileHandler * Disk :=
  if negb (is_directory event) then trigger_reindex self event current_time proj d
  else (self, d).

(** ** [dict.update], and the index as a sequence of assignments *)

(** [d.update(items)]: the assignments [d[k] = v] in the order of [items]. *)
Definition dict_update {V} (d : dict V) (items : list (string * V)) : dict V :=
  fold_left (fun d kv => dict_set (fst kv) (snd kv) d) items d.

(** The assignments to [self.embeddings] that [index_project] makes for the
    files of one directory: one per file with an indexed extension whose
    embedding succeeds. *)
Definition emb_writes_in (self : LambdaProjectIndexer) (proj : Project) (v : visit) :
    list (string * ndarray) :=
  flat_map
    (fun name =>
       if str_in (path_suffix name) extensions then
         match embed_file self proj (os_path_join (root v) name) with
         | Ok embedding => [(relpath_below (below v) name, embedding)]
         | Raise _ => []
         end
       else [])
    (files v).

(** The assignments to [self.metadata]: as above, for the files whose size
    can also be read. *)
Definition meta_writes_in (self : LambdaProjectIndexer) (proj : Project) (v : visit) :
    list (string * FileMeta) :=
  flat_map
    (fun name =>
       if str_in (path_suffix name) extensions then
         match embed_file self proj (os_path_join (root v) name),
               getsize proj (os_path_join (root v) name) with
         | Ok _, Ok sz =>
             [(relpath_below (below v) name,
               {| absolute_path := os_path_join (root v) name;
                  extension := path_suffix name;
                  size := sz |})]
         | _, _ => []
         end
       else [])
    (files v).

Definition emb_writes (self : LambdaProjectIndexer) (proj : Project)
    (visits : list visit) : list (string * ndarray) :=
  flat_map (emb_writes_in self proj) visits.

Definition meta_writes (self : LambdaProjectIndexer) (proj : Project)
    (visits : list visit) : list (string * FileMeta) :=
  flat_map (meta_writes_in self proj) visits.

(** ** Start-up: [auto_index.main] up to the creation of the handler

    [rag_server.py] starts with the same load-or-build step. *)

(** [os.path.exists(path)] *)
Definition os_path_exists (d : Disk) (path : string) : bool :=
  bool_decide (is_Some (disk_files d !! path)).

(** An exception is not caught here: it ends the process. *)
Definition main_startup (m : text → result (list ndarray)) (proj : Project)
    (project_path : string) (d : Disk) : Disk * result ProjectFileHandler :=
  let indexer := LambdaProjectIndexer_init m in
  if os_path_exists d "lambda_index_embeddings.npz" then
    match load_index indexer "lambda_index" d with
    | (indexer, Ok _) => (d, Ok (ProjectFileHandler_init indexer project_path))
    | (_, Raise e) => (d, Raise e)
    end
  else
    let indexer := index_project indexer proj project_path in
    match save_index indexer "lambda_index" d with
    | (d, Ok _) => (d, Ok (ProjectFileHandler_init indexer project_path))
    | (d, Raise e) => (d, Raise e)
    end.

(** ** [upgrade_to_chunked.py]: backup and removal of the index files *)

Definition index_artifacts : list string :=
  ["lambda_index_embeddings.npz"; "lambda_index_metadata.json"].

(** [shutil.copy2(src, dst)] *)
Definition shutil_copy2 (d : Disk) (src dst : string) : Disk * result unit :=
  match disk_files d !! src with
  | None => (d, Raise (FileNotFoundError src))
  | Some a => write_file d dst a
  end.

(** The loop of [backup_old_index]; directories are not modelled, so
    [os.makedirs] leaves the disk as it is. *)
Fixpoint backup_loop (backup_dir : string) (filenames : list string) (d : Disk)
    (backed_up : list string) : Disk * result (list string) :=
  match filenames with
  | [] => (d, Ok backed_up)
  | filename :: rest =>
      if os_path_exists d filename then
        match shutil_copy2 d filename (os_path_join backup_dir filename) with
        | (d, Ok _) => backup_loop backup_dir rest d (backed_up ++ [filename])
        | (d, Raise e) => (d, Raise e)
        end
      else backup_loop backup_dir rest d backed_up
  end.

(** [stamp] is [datetime.now().strftime('%Y%m%d_%H%M%S')]. *)
Definition backup_old_index (stamp : string) (d : Disk) : Disk * result (option string) :=
  let backup_dir := "backup_index_" +:+ stamp in
  match backup_loop backup_dir index_artifacts d [] with
  | (d, Ok []) => (d, Ok None)
  | (d, Ok (_ :: _)) => (d, Ok (Some backup_dir))
  | (d, Raise e) => (d, Raise e)
  end.

(** [os.remove(path)] of a file that exists. *)
Definition os_remove (d : Disk) (path : string) : Disk :=
  {| disk_files := delete path (disk_files d); disk_locked := disk_locked d |}.

Definition clean_old_index (d : Disk) : Disk :=
  fold_left
    (fun d filename => if os_path_exists d filename then os_remove d filename else d)
    index_artifacts d.

(** ** [dual_gpu_config.py]: the device recommendation *)

Record Hardware : Type := {
  gpus : list string;
  gpu_count : nat;
  has_npu : bool;
  all_devices : list string
}.

(** [devices] is [Core().available_devices]. *)
Definition detect_hardware (devices : list string) : Hardware :=
  let gpus := List.filter (String.prefix "GPU") devices in
  {| gpus := gpus;
     gpu_count := length gpus;
     has_npu := str_in "NPU" devices;
     all_devices := devices |}.

Record Config : Type := {
  embedding_device : string;
  lm_studio_gpu : string;
  setup_type : string;
  recommendations : list string
}.

Definition recommend_configuration (hardware : Hardware) : Config :=
  if (2 <=? gpu_count hardware)%nat then
    {| embedding_device := "GPU.1";
       lm_studio_gpu := "GPU.0";
       setup_type := "dual_gpu_optimal";
       recommendations :=
         ["Use GPU.0 for LM Studio (main LLM)";
          "Use GPU.1 for embeddings (background indexing)";
          "Load Qwen 2.5 32B on GPU.0 for best quality";
          "Or run two models: 32B on GPU.0, 14B Coder on GPU.1"] |}
  else if (gpu_count hardware =? 1)%nat then
    if has_npu hardware then
      {| embedding_device := "NPU";
         lm_studio_gpu := "GPU.0";
         setup_type := "single_gpu_with_npu";
         recommendations :=
           ["Use GPU.0 for LM Studio (main LLM)";
            "Use NPU for embeddings (no GPU impact)";
            "Load Qwen 2.5 Coder 14B on GPU.0"] |}
    else
      {| embedding_device := "CPU";
         lm_studio_gpu := "GPU.0";
         setup_type := "single_gpu_cpu_embeddings";
         recommendations :=
           ["Use GPU.0 for LM Studio (main LLM)";
            "Use CPU for embeddings (slower but works)";
            "Load Qwen 2.5 Coder 14B on GPU.0"] |}
  else
    {| embedding_device := if has_npu hardware then "NPU" else "CPU";
       lm_studio_gpu := "CPU";
       setup_type := "no_gpu";
       recommendations :=
         ["No GPU detected - using CPU for everything";
          "Performance will be limited";
          "Consider using smaller models"] |}.

(** ** The aggregation rule, as the specification words it

    Component [i] of the element-wise arithmetic mean of [vectors]: the sum
    of their [i]-th components divided by their number, each vector with
    the same weight. *)
Definition elementwise_mean (vectors : list ndarray) (i : nat) : Q :=
  (foldr Qplus 0 (map (fun v => nth i v 0) vectors)
     / inject_Z (Z.of_nat (length vectors)))%Q.

(** Two arrays of one shape agree within the absolute tolerance [atol],
    component by component. *)
Definition allclose (atol : Q) (a b : ndarray) : Prop :=
  Forall2 (fun x y => (Qabs (x - y) <= atol)%Q) a b.

(** ** A small instance, used in the examples *)

(** An arithmetic for the examples: sums, products and quotients are
    exact, the square root is the one on whole numbers, rounded down, and
    the infinities and [nan] arise as in IEEE 754. *)
Definition exact_dot (a b : ndarray) : Q :=
  fold_left Qplus (zip_with Qmult a b) 0%Q.

Definition example_sqrt (x : Q) : Q := inject_Z (Z.sqrt (Qfloor x)).

Definition sign (x : pyfloat) : comparison :=
  match x with
  | Num q => (q ?= 0)%Q
  | PosInf => Gt
  | NegInf => Lt
  | NaN => Eq
  end.

Definition sign_mul (s t : comparison) : comparison :=
  match s, t with
  | Eq, _ | _, Eq => Eq
  | Gt, Gt | Lt, Lt => Gt
  | _, _ => Lt
  end.

Definition infinity (s : comparison) : pyfloat :=
  match s with
  | Gt => PosInf
  | Lt => NegInf
  | Eq => NaN
  end.

Definition example_mul (x y : pyfloat) : pyfloat :=
  match x, y with
  | NaN, _ | _, NaN => NaN
  | Num a, Num b => Num (a * b)
  | _, _ => infinity (sign_mul (sign x) (sign y))
  end.

Definition example_div (x y : pyfloat) : pyfloat :=
  match x, y with
  | NaN, _ | _, NaN => NaN
  | Num a, Num b => if Qeq_bool b 0 then infinity (sign x) else Num (a / b)
  | Num _, _ => Num 0
  | _, Num b => infinity (sign_mul (sign x) (if Qeq_bool b 0 then Gt else sign y))
  | _, _ => NaN
  end.

Definition example_numpy : Numpy :=
  {| np_dot := fun a b => Num (exact_dot a b);
     np_linalg_norm := fun a => Num (example_sqrt (exact_dot a a));
     float_mul := example_mul;
     float_div := example_div |}.

(** One row per character, holding its code point and a constant; the
    empty text is refused. *)
Definition example_model (t : text) : result (list ndarray) :=
  match t with
  | [] => Raise RuntimeError
  | _ => Ok (map (fun c => [inject_Z (Z.of_N c); 1%Q]) t)
  end.

Definition example_meta (p : string) : FileMeta :=
  {| absolute_path := "./" +:+ p; extension := path_suffix p; size := 1 |}.

(** Three indexed files; [a.py] and [c.txt] have the same vector. *)
Definition example_store : LambdaProjectIndexer :=
  {| model := example_model;
     embeddings := [("a.py", [1; 0]); ("b.md", [0; 1]); ("c.txt", [1; 0])]%Q;
     metadata := [("a.py", example_meta "a.py"); ("b.md", example_meta "b.md");
                  ("c.txt", example_meta "c.txt")] |}.

(** Three indexed files, each with its metadata; the vector of [z.py] is
    zero. *)
Definition example_zero_norm : LambdaProjectIndexer :=
  {| model := example_model;
     embeddings := [("n.py", [-1; 0]); ("z.py", [0; 0]); ("p.py", [1; 0])]%Q;
     metadata := [("n.py", example_meta "n.py"); ("z.py", example_meta "z.py");
                  ("p.py", example_meta "p.py")] |}.

(** A pair of artifacts that do not match: the vector container has a
    path that the metadata document lacks. *)
Definition example_mismatched_disk : Disk :=
  {| disk_files :=
       <["lambda_index_embeddings.npz" := NpzFile [("a.py", [1; 0]%Q)] ]>
         {["lambda_index_metadata.json" := JsonFile []]};
     disk_locked := ∅ |}.

(** The fresh indexer after [load_index] on that pair. *)
Definition example_mismatched : LambdaProjectIndexer :=
  fst (load_index (LambdaProjectIndexer_init example_model) "lambda_index"
                  example_mismatched_disk).

(** A text of 513 words: with [max_length = 512] it makes two chunks. *)
Definition example_long_text : text :=
  concat (replicate 513 (of_string "w ")).

(** A project with one long file. *)
Definition example_long_project : Project :=
  {| listing := [File "long.txt"];
     read_text := fun _ => Ok example_long_text;
     getsize := fun _ => Ok 1026 |}.

(** A project tree: [b.md] cannot be read, [c.bin] has no indexed
    extension, [venv] is pruned. *)
Definition example_project : Project :=
  {| listing := [File "a.py"; File "b.md"; File "c.bin";
                 Directory "venv" [File "x.py"];
                 Directory "src" [File "d.txt"]];
     read_text := fun p =>
       if String.eqb p "./b.md" then Raise (PermissionError p)
       else Ok (of_string p);
     getsize := fun _ => Ok 10 |}.

(** The same project after [a.py] has been deleted. *)
Definition example_project_after : Project :=
  {| listing := [File "b.md"; File "c.bin";
                 Directory "venv" [File "x.py"];
                 Directory "src" [File "d.txt"]];
     read_text := fun p =>
       if String.eqb p "./b.md" then Raise (PermissionError p)
       else if String.eqb p "./a.py" then Raise (FileNotFoundError p)
       else Ok (of_string p);
     getsize := fun p =>
       if String.eqb p "./a.py" then Raise (FileNotFoundError p) else Ok 10 |}.

Definition example_empty_disk : Disk := {| disk_files := ∅; disk_locked := ∅ |}.

(** The watcher, created on the index of [example_project]. *)
Definition example_handler : ProjectFileHandler :=
  ProjectFileHandler_init
    (index_project (LambdaProjectIndexer_init example_model) example_project "./")
    "./".

(** A disk on which the metadata document cannot be written. *)
Definition example_locked_disk : Disk :=
  {| disk_files := ∅; disk_locked := {["lambda_index_metadata.json"]} |}.

(** A disk that already holds the container of another index, and on
    which one path is write-protected. *)
Definition example_shared_disk : Disk :=
  {| disk_files := {[ "other_embeddings.npz" := NpzFile [("x.py", [1; 1]%Q)] ]};
     disk_locked := {[ "readonly.json" ]} |}.

(** The watcher after a successful re-index at time 100. *)
Definition example_handler_at_100 : ProjectFileHandler :=
  {| indexer := indexer example_handler; project_path := "./";
     last_reindex := 100; reindex_delay := 2 |}.

(** A project whose only file can be read but not measured (it goes
    away between the two calls). *)
Definition example_project_unstat : Project :=
  {| listing := [File "a.py"];
     read_text := fun p => Ok (of_string p);
     getsize := fun p => Raise (FileNotFoundError p) |}.

(** A project with a file from an older system: its name, [café.md] in
    Latin-1, has a byte that is no UTF-8, and it cannot be read. *)
Definition legacy_name : string := "caf" +:+ String (ascii_of_nat 233) ".md".

Definition example_legacy_project : Project :=
  {| listing := [File "a.py"; File legacy_name; Directory "src" [File "d.txt"]];
     read_text := fun p =>
       if String.eqb p ("./" +:+ legacy_name) then Raise (PermissionError p)
       else Ok (of_string p);
     getsize := fun _ => Ok 10 |}.

(** A strict UTF-8 standard output, as far as paths go: a byte above 127
    in a path is an undecodable byte of a file name, a lone surrogate in
    the Python string, which the stream refuses with [UnicodeEncodeError],
    a [ValueError]. *)
Definition example_stdout (m : message) : result unit :=
  let path := match m with Indexed p => p | Failed p _ => p end in
  if forallb (fun c => (c <? 128)%N) (of_string path) then Ok tt
  else Raise ValueError.

(** ** Words and splitting *)

Definition is_word (w : text) : Prop :=
  w ≠ [] ∧ Forall (fun c => isspace c = false) w.

Lemma split_from_space (word a b : text) (c : char) :
  isspace c = true →
  split_from word (a ++ c :: b) = split_from word a ++ split_from [] b.
Proof.
  intros Hc. revert word.
  induction a as [|x a IH]; intros word; simpl.
  - now rewrite Hc.
  - destruct (isspace x).
    + now rewrite IH, app_assoc.
    + apply IH.
Qed.

Lemma split_from_nospace (word w : text) :
  Forall (fun c => isspace c = false) w →
  split_from word w = flush (word ++ w).
Proof.
  intros Hw. revert word.
  induction Hw as [|c w Hc _ IH]; intros word; simpl.
  - now rewrite app_nil_r.
  - rewrite Hc, IH. now rewrite <- app_assoc.
Qed.

Lemma str_split_word (w : text) : is_word w → str_split w = [w].
Proof.
  intros [Hne Hw]. unfold str_split.
  rewrite split_from_nospace by assumption. simpl.
  destruct w; [contradiction | reflexivity].
Qed.

Lemma split_from_words (word s : text) :
  Forall (fun c => isspace c = false) word →
  Forall is_word (split_from word s).
Proof.
  revert word.
  induction s as [|c s IH]; intros word Hword; simpl.
  - destruct word; simpl; [constructor |].
    constructor; [split; [discriminate | assumption] | constructor].
  - destruct (isspace c) eqn:Hc.
    + apply Forall_app. split; [| apply IH; constructor].
      destruct word; simpl; [constructor |].
      constructor; [split; [discriminate | assumption] | constructor].
    + apply IH. apply Forall_app. split; [assumption |].
      constructor; [assumption | constructor].
Qed.

Lemma str_split_words (s : text) : Forall is_word (str_split s).
Proof. apply split_from_words. constructor. Qed.

Lemma str_split_join (parts : list text) :
  str_split (str_join SPACE parts) = concat (map str_split parts).
Proof.
  induction parts as [|p [|q ps] IH].
  - reflexivity.
  - simpl. now rewrite app_nil_r.
  - change (str_join SPACE (p :: q :: ps))
      with (p ++ 32%N :: str_join SPACE (q :: ps)).
    unfold str_split at 1.
    rewrite split_from_space by reflexivity.
    change (split_from [] (str_join SPACE (q :: ps)))
      with (str_split (str_join SPACE (q :: ps))).
    rewrite IH. reflexivity.
Qed.

Lemma concat_split_words (ws : list text) :
  Forall is_word ws → concat (map str_split ws) = ws.
Proof.
  induction 1 as [|w ws Hw _ IH]; simpl; [reflexivity |].
  now rewrite str_split_word, IH.
Qed.

Lemma str_split_join_words (ws : list text) :
  Forall is_word ws → str_split (str_join SPACE ws) = ws.
Proof. intros H. rewrite str_split_join. now apply concat_split_words. Qed.

(** The loop keeps every word, in order: the words of the emitted chunks,
    then the words of the running chunk, then the words still to come. *)
Lemma chunk_loop_tokens (max_length : Z) (words : list text) :
  ∀ chunks current_chunk,
    Forall is_word current_chunk →
    Forall is_word words →
    let '(chunks', current') := chunk_loop max_length words chunks current_chunk in
    concat (map str_split chunks') ++ current'
      = concat (map str_split chunks) ++ current_chunk ++ words
    ∧ Forall is_word current'.
Proof.
  induction words as [|word words IH]; intros chunks cur Hcur Hwords; simpl.
  - now rewrite app_nil_r.
  - inversion Hwords as [|? ? Hword Hrest]; subst.
    assert (Hcur' : Forall is_word (cur ++ [word])).
    { apply Forall_app. split; [assumption | constructor; [assumption | constructor]]. }
    destruct (max_length <=? _).
    + specialize (IH (chunks ++ [str_join SPACE (cur ++ [word])]) []
                     (Forall_nil_2 _) Hrest).
      destruct (chunk_loop max_length words _ []) as [chunks' current'].
      destruct IH as [IH1 IH2]. split; [| assumption].
      rewrite IH1, map_app, concat_app. simpl.
      rewrite str_split_join_words by assumption.
      rewrite app_nil_r, <- !app_assoc. reflexivity.
    + specialize (IH chunks (cur ++ [word]) Hcur' Hrest).
      destruct (chunk_loop max_length words chunks (cur ++ [word]))
        as [chunks' current'].
      destruct IH as [IH1 IH2]. split; [| assumption].
      rewrite IH1, <- !app_assoc. reflexivity.
Qed.

(** C3.  For every input text and every [max_words >= 1], joining the chunks
    that [_chunk_text] returns with single spaces and splitting the result
    on whitespace gives exactly the whitespace-delimited token sequence of
    the input.  (The proof does not use the bound on [max_words].) *)
Theorem chunk_roundtrip_tokens (content : text) (max_words : Z) :
  1 <= max_words →
  str_split (str_join SPACE (_chunk_text content max_words)) = str_split content.
Proof.
  intros _. unfold _chunk_text.
  pose proof (chunk_loop_tokens max_words (str_split content) [] []
                (Forall_nil_2 _) (str_split_words content)) as H.
  destruct (chunk_loop max_words (str_split content) [] []) as [chunks cur].
  simpl in H. destruct H as [Htok Hcur].
  set (final := match cur with [] => chunks | _ => chunks ++ [str_join SPACE cur] end).
  assert (Hfinal : concat (map str_split final) = str_split content).
  { subst final. destruct cur as [|w cur].
    - now rewrite app_nil_r in Htok.
    - rewrite map_app, concat_app. cbn [map concat].
      rewrite str_split_join_words by assumption.
      now rewrite app_nil_r. }
  destruct final as [|c final'] eqn:E.
  - reflexivity.
  - rewrite str_split_join. exact Hfinal.
Qed.

Lemma chunk_roundtrip_tokens_witness :
  1 <= 2 ∧
  _chunk_text (of_string "  alpha beta   gamma ") 2
    = [of_string "alpha beta"; of_string "gamma"] ∧
  str_split (str_join SPACE (_chunk_text (of_string "  alpha beta   gamma ") 2))
    = str_split (of_string "  alpha beta   gamma ").
Proof.
  split; [lia |]. split; [reflexivity |].
  apply (chunk_roundtrip_tokens (of_string "  alpha beta   gamma ") 2). lia.
Defined.

(** ** Dictionaries *)

Section Dict.
Context {V : Type}.
Implicit Types (d : dict V) (k : string) (v : V).

Lemma dict_get_set_eq k v d : dict_get (dict_set k v d) k = Some v.
Proof.
  induction d as [|[k' v'] d IH]; simpl.
  - now rewrite String.eqb_refl.
  - destruct (String.eqb k k') eqn:E; simpl.
    + now rewrite String.eqb_refl.
    + now rewrite E.
Qed.

Lemma dict_get_set_ne k k' v d :
  k ≠ k' → dict_get (dict_set k v d) k' = dict_get d k'.
Proof.
  intros Hne.
  induction d as [|[k0 v0] d IH]; simpl.
  - destruct (String.eqb_spec k' k); [congruence | reflexivity].
  - destruct (String.eqb_spec k k0) as [->|Hk]; simpl.
    + destruct (String.eqb_spec k' k0); [congruence | reflexivity].
    + destruct (String.eqb_spec k' k0); [reflexivity | exact IH].
Qed.

Lemma dict_get_None k d : dict_get d k = None ↔ k ∉ dict_keys d.
Proof.
  unfold dict_keys.
  induction d as [|[k' v'] d IH]; simpl.
  - split; [intros _; apply not_elem_of_nil | reflexivity].
  - rewrite not_elem_of_cons.
    destruct (String.eqb_spec k k') as [->|Hk]; [| tauto].
    split; [discriminate | tauto].
Qed.

Lemma dict_get_is_Some k d : is_Some (dict_get d k) ↔ k ∈ dict_keys d.
Proof.
  rewrite <- not_eq_None_Some, dict_get_None.
  destruct (decide (k ∈ dict_keys d)); tauto.
Qed.

Lemma dict_set_fresh k v d :
  k ∉ dict_keys d → dict_set k v d = d ++ [(k, v)].
Proof.
  unfold dict_keys.
  induction d as [|[k' v'] d IH]; simpl; [reflexivity |].
  rewrite not_elem_of_cons. intros [Hne Hnotin].
  destruct (String.eqb_spec k k'); [contradiction |].
  now rewrite IH.
Qed.

Lemma dict_keys_set_present k v d :
  k ∈ dict_keys d → dict_keys (dict_set k v d) = dict_keys d.
Proof.
  unfold dict_keys.
  induction d as [|[k' v'] d IH]; simpl.
  - intros H. now apply elem_of_nil in H.
  - destruct (String.eqb_spec k k') as [->|Hk]; simpl; [reflexivity |].
    rewrite elem_of_cons. intros [? | Hin]; [contradiction |].
    now rewrite IH.
Qed.

Lemma dict_keys_set k v d :
  dict_keys (dict_set k v d)
    = if decide (k ∈ dict_keys d) then dict_keys d else dict_keys d ++ [k].
Proof.
  destruct (decide (k ∈ dict_keys d)) as [Hin|Hnotin].
  - now apply dict_keys_set_present.
  - rewrite dict_set_fresh by assumption.
    unfold dict_keys. now rewrite map_app.
Qed.

Lemma dict_set_wf k v d : dict_wf d → dict_wf (dict_set k v d).
Proof.
  unfold dict_wf. intros Hwf. rewrite dict_keys_set.
  destruct (decide (k ∈ dict_keys d)); [assumption |].
  apply NoDup_app. split_and!; [assumption | | apply NoDup_singleton].
  intros x Hx Hk. apply list_elem_of_singleton in Hk. now subst.
Qed.

Lemma dict_set_length k v d : (length (dict_set k v d) ≤ S (length d))%nat.
Proof.
  induction d as [|[k' v'] d IH]; simpl; [lia |].
  destruct (String.eqb k k'); simpl; lia.
Qed.

Lemma dict_get_elem k v d : dict_wf d → (k, v) ∈ d → dict_get d k = Some v.
Proof.
  unfold dict_wf, dict_keys.
  induction d as [|[k' v'] d IH]; simpl; intros Hwf Hin.
  - now apply elem_of_nil in Hin.
  - apply NoDup_cons in Hwf as [Hk' Hwf].
    apply elem_of_cons in Hin as [Heq | Hin].
    + inversion Heq; subst. now rewrite String.eqb_refl.
    + destruct (String.eqb_spec k k') as [->|Hne]; [| now apply IH].
      exfalso. apply Hk'. apply list_elem_of_fmap. now exists (k', v).
Qed.
End Dict.

(** Filling a dictionary from items with distinct keys keeps the items in
    their order; [g] computes the stored value. *)
Lemma fold_dict_set_fresh {V W} (g : V → W) (items : list (string * V)) :
  ∀ acc : dict W,
    NoDup (dict_keys acc ++ map fst items) →
    fold_left (fun a kv => dict_set (fst kv) (g (snd kv)) a) items acc
      = acc ++ map (fun kv => (fst kv, g (snd kv))) items.
Proof.
  induction items as [|[k v] items IH]; intros acc Hnd; simpl.
  - now rewrite app_nil_r.
  - simpl in Hnd.
    assert (Hk : k ∉ dict_keys acc).
    { apply NoDup_app in Hnd as (_ & Hdisj & _).
      intros Hin. apply (Hdisj k Hin). now left. }
    rewrite dict_set_fresh by assumption.
    rewrite IH.
    + now rewrite <- app_assoc.
    + unfold dict_keys in *. rewrite map_app. simpl.
      rewrite <- app_assoc. exact Hnd.
Qed.

Lemma fold_dict_set_length {V W} (g : V → W) (items : list (string * V)) :
  ∀ acc : dict W,
    (length (fold_left (fun a kv => dict_set (fst kv) (g (snd kv)) a) items acc)
       ≤ length acc + length items)%nat.
Proof.
  induction items as [|kv items IH]; intros acc; simpl; [lia |].
  specialize (IH (dict_set (fst kv) (g (snd kv)) acc)).
  pose proof (dict_set_length (fst kv) (g (snd kv)) acc). lia.
Qed.

Lemma fold_dict_set_wf {V W} (g : V → W) (items : list (string * V)) :
  ∀ acc : dict W,
    dict_wf acc →
    dict_wf (fold_left (fun a kv => dict_set (fst kv) (g (snd kv)) a) items acc).
Proof.
  induction items as [|kv items IH]; intros acc Hacc; simpl; [assumption |].
  apply IH. now apply dict_set_wf.
Qed.

Lemma dict_of_items_id {V} (d : dict V) : dict_wf d → dict_of_items d = d.
Proof.
  intros Hwf. unfold dict_of_items.
  rewrite (fold_dict_set_fresh (fun v => v) d []) by exact Hwf.
  simpl. rewrite <- (map_id d) at 2. apply map_ext. now intros [k v].
Qed.

Lemma dict_of_items_wf {V} (items : list (string * V)) : dict_wf (dict_of_items items).
Proof. apply (fold_dict_set_wf (fun v => v)). apply NoDup_nil_2. Qed.

(** ** Comparison of finite floats *)

Lemma float_lt_true (x y : Q) : float_lt x y = true ↔ (x < y)%Q.
Proof.
  unfold float_lt. rewrite negb_true_iff, <- not_true_iff_false, Qle_bool_iff.
  split; [apply Qnot_le_lt | apply Qlt_not_le].
Qed.

Lemma float_lt_false (x y : Q) : float_lt x y = false ↔ (y <= x)%Q.
Proof. unfold float_lt. now rewrite negb_false_iff, Qle_bool_iff. Qed.

(** ** The order of scores that are not [nan] *)

Lemma pyfloat_lt_le (x y : pyfloat) : pyfloat_lt x y = true → pyfloat_le x y = true.
Proof.
  destruct x as [a| | |], y as [b| | |]; simpl; try done.
  rewrite negb_true_iff, <- not_true_iff_false, !Qle_bool_iff.
  intros Hlt. apply Qlt_le_weak. now apply Qnot_le_lt.
Qed.

Lemma pyfloat_not_lt_le (x y : pyfloat) :
  is_nan x = false → is_nan y = false →
  pyfloat_lt x y = false → pyfloat_le y x = true.
Proof.
  destruct x as [a| | |], y as [b| | |]; simpl; try done.
  now rewrite negb_false_iff.
Qed.

Lemma pyfloat_le_trans (x y z : pyfloat) :
  pyfloat_le x y = true → pyfloat_le y z = true → pyfloat_le x z = true.
Proof.
  destruct x as [a| | |], y as [b| | |], z as [c| | |]; simpl; try done.
  rewrite !Qle_bool_iff. apply Qle_trans.
Qed.

Lemma pyfloat_lt_not_eq (x y : pyfloat) :
  pyfloat_lt x y = true → pyfloat_eq y x = true → False.
Proof.
  destruct x as [a| | |], y as [b| | |]; simpl; try done.
  rewrite negb_true_iff, <- not_true_iff_false, Qle_bool_iff.
  intros Hlt Heq. apply Hlt. apply Qeq_bool_iff in Heq. rewrite Heq. apply Qle_refl.
Qed.

(** ** The descending stable sort *)

Section Sorting.
Context {A : Type} (key : A → pyfloat).

(** Where [insert_desc] puts the new element: after a prefix of strictly
    greater keys. *)
Lemma insert_desc_at (x : A) (s : list A) :
  ∃ n, (n ≤ length s)%nat
       ∧ insert_desc key x s = take n s ++ x :: drop n s
       ∧ Forall (fun y => pyfloat_lt (key x) (key y) = true) (take n s).
Proof.
  induction s as [|y s IH]; simpl.
  - exists 0%nat. split_and!; [lia | reflexivity | constructor].
  - destruct (pyfloat_lt (key x) (key y)) eqn:E.
    + destruct IH as (n & Hn & Heq & Hall).
      exists (S n). simpl. split_and!; [lia | now rewrite Heq |].
      constructor; [assumption | assumption].
    + exists 0%nat. simpl. split_and!; [lia | reflexivity | constructor].
Qed.

Lemma lookup_inserted (x : A) (s : list A) (n i : nat) :
  (n ≤ length s)%nat →
  (take n s ++ x :: drop n s) !! i
    = if decide (i < n)%nat then s !! i
      else if decide (i = n) then Some x else s !! (i - 1)%nat.
Proof.
  intros Hn.
  destruct (decide (i < n)%nat) as [Hlt|Hge].
  - rewrite lookup_app_l by (rewrite length_take; lia).
    now apply lookup_take_lt.
  - rewrite lookup_app_r by (rewrite length_take; lia).
    rewrite length_take, Nat.min_l by lia.
    destruct (decide (i = n)) as [->|Hne].
    + now rewrite Nat.sub_diag.
    + replace (i - n)%nat with (S (i - n - 1)) by lia. simpl.
      rewrite lookup_drop. f_equal. lia.
Qed.

Lemma insert_desc_perm (x : A) (s : list A) : insert_desc key x s ≡ₚ x :: s.
Proof.
  induction s as [|y s IH]; simpl; [reflexivity |].
  destruct (pyfloat_lt (key x) (key y)); [| reflexivity].
  rewrite IH. apply Permutation_swap.
Qed.

Lemma sorted_reverse_perm (l : list A) : sorted_reverse key l ≡ₚ l.
Proof.
  induction l as [|x l IH]; simpl; [reflexivity |].
  now rewrite insert_desc_perm, IH.
Qed.

Lemma sorted_reverse_length (l : list A) :
  length (sorted_reverse key l) = length l.
Proof. now rewrite sorted_reverse_perm. Qed.

Lemma insert_desc_sorted (x : A) (s : list A) :
  is_nan (key x) = false →
  Forall (fun y => is_nan (key y) = false) s →
  StronglySorted (ge_key key) s → StronglySorted (ge_key key) (insert_desc key x s).
Proof.
  intros Hx Hnum. induction 1 as [|y s Hs IH Hy]; simpl.
  - repeat constructor.
  - apply Forall_cons in Hnum as [Hynum Hnum].
    destruct (pyfloat_lt (key x) (key y)) eqn:E.
    + constructor; [now apply IH |].
      rewrite insert_desc_perm. constructor; [| assumption].
      now apply pyfloat_lt_le.
    + apply pyfloat_not_lt_le in E; [| assumption | assumption].
      constructor; [now constructor |].
      constructor; [assumption |].
      eapply Forall_impl; [exact Hy |].
      intros z Hz. unfold ge_key in *. now apply pyfloat_le_trans with (key y).
Qed.

(** With no [nan] among the keys the result is in descending order. *)
Lemma sorted_reverse_sorted (l : list A) :
  Forall (fun y => is_nan (key y) = false) l →
  StronglySorted (ge_key key) (sorted_reverse key l).
Proof.
  induction 1 as [|x l Hx Hl IH]; simpl; [constructor |].
  apply insert_desc_sorted; [assumption | | assumption].
  now rewrite sorted_reverse_perm.
Qed.

Lemma StronglySorted_lookup (R : A → A → Prop) (l : list A) :
  StronglySorted R l →
  ∀ i j x y, (i < j)%nat → l !! i = Some x → l !! j = Some y → R x y.
Proof.
  induction 1 as [|z l Hl IH Hz]; intros i j x y Hij Hi Hj.
  - now rewrite lookup_nil in Hi.
  - destruct j as [|j]; [lia |]. simpl in Hj.
    destruct i as [|i]; simpl in Hi.
    + inversion Hi; subst.
      rewrite Forall_forall in Hz. apply Hz.
      now apply list_elem_of_lookup_2 in Hj.
    + apply (IH i j); [lia | assumption | assumption].
Qed.

(** Stability: two elements with equal keys leave the sort in the order
    in which they entered it. *)
Lemma sorted_reverse_stable (l : list A) :
  ∀ i j x y,
    (i < j)%nat →
    sorted_reverse key l !! i = Some x →
    sorted_reverse key l !! j = Some y →
    pyfloat_eq (key x) (key y) = true →
    ∃ p q, (p < q)%nat ∧ l !! p = Some x ∧ l !! q = Some y.
Proof.
  induction l as [|z l IH]; intros i j x y Hij Hi Hj Hkey; simpl in *.
  - now rewrite lookup_nil in Hi.
  - destruct (insert_desc_at z (sorted_reverse key l)) as (n & Hn & Heq & Hall).
    rewrite Heq in Hi, Hj.
    rewrite lookup_inserted in Hi, Hj by assumption.
    assert (Hlift : ∀ i' j', (i' < j')%nat →
              sorted_reverse key l !! i' = Some x →
              sorted_reverse key l !! j' = Some y →
              ∃ p q, (p < q)%nat ∧ (z :: l) !! p = Some x ∧ (z :: l) !! q = Some y).
    { intros i' j' Hlt Hx Hy.
      destruct (IH i' j' x y Hlt Hx Hy Hkey) as (p & q & Hpq & Hp & Hq).
      exists (S p), (S q). split_and!; [lia | assumption | assumption]. }
    destruct (decide (i < n)%nat) as [Hin|Hin].
    + destruct (decide (j < n)%nat) as [Hjn|Hjn]; [now apply (Hlift i j) |].
      destruct (decide (j = n)) as [->|Hjn'].
      * inversion Hj; subst y.
        rewrite Forall_forall in Hall.
        assert (Hx : x ∈ take n (sorted_reverse key l)).
        { apply list_elem_of_lookup. exists i. now rewrite lookup_take_lt. }
        apply Hall in Hx. simpl in Hx. now destruct (pyfloat_lt_not_eq _ _ Hx Hkey).
      * apply (Hlift i (j - 1)%nat); [lia | assumption | assumption].
    + destruct (decide (i = n)) as [->|Hin'].
      * inversion Hi; subst x.
        destruct (decide (j < n)%nat); [lia |].
        destruct (decide (j = n)); [lia |].
        assert (Hy : y ∈ l).
        { rewrite <- sorted_reverse_perm. now apply list_elem_of_lookup_2 in Hj. }
        apply list_elem_of_lookup in Hy as [q Hq].
        exists 0%nat, (S q). split_and!; [lia | reflexivity | assumption].
      * destruct (decide (j < n)%nat); [lia |].
        destruct (decide (j = n)); [lia |].
        apply (Hlift (i - 1)%nat (j - 1)%nat); [lia | assumption | assumption].
Qed.
End Sorting.


(** ** Search *)

Section Search.
Context `{Numpy}.

Lemma similarities_wf (q : ndarray) (embs : dict ndarray) :
  dict_wf embs →
  similarities q embs = map (fun fe => (fst fe, cosine q (snd fe))) embs.
Proof.
  intros Hwf. unfold similarities.
  now rewrite (fold_dict_set_fresh (cosine q) embs []).
Qed.

Lemma similarities_length (q : ndarray) (embs : dict ndarray) :
  (length (similarities q embs) ≤ length embs)%nat.
Proof. apply (fold_dict_set_length (cosine q) embs []). Qed.

Lemma collect_results_ok (md : dict FileMeta) (top : list (string * pyfloat)) :
  (∀ fs, fs ∈ top → is_Some (dict_get md (fst fs))) →
  ∃ results, collect_results md top = Ok results ∧ Forall2 (built_from md) top results.
Proof.
  induction top as [|[f s] top IH]; intros Hcov; simpl.
  - exists []. split; [reflexivity | constructor].
  - destruct (Hcov (f, s)) as [m Hm]; [now left |]. simpl in Hm.
    destruct IH as (results & Hres & Hall).
    { intros fs Hin. apply Hcov. now right. }
    unfold dict_getitem. rewrite Hm. simpl. rewrite Hres. simpl.
    eexists. split; [reflexivity |].
    constructor; [| assumption]. now split_and!.
Qed.

Lemma collect_results_KeyError (md : dict FileMeta) (top : list (string * pyfloat)) (path : string) :
  path ∈ map fst top →
  dict_get md path = None →
  ∃ missing, collect_results md top = Raise (KeyError missing)
             ∧ missing ∈ map fst top ∧ dict_get md missing = None.
Proof.
  induction top as [|[f s] top IH]; simpl; intros Hin Hnone.
  - now apply elem_of_nil in Hin.
  - unfold dict_getitem.
    destruct (dict_get md f) as [m|] eqn:Hf; simpl.
    + apply elem_of_cons in Hin as [-> | Hin]; [congruence |].
      destruct (IH Hin Hnone) as (missing & Hraise & Hmin & Hmnone).
      exists missing. rewrite Hraise. simpl.
      split_and!; [reflexivity | now right | assumption].
    + exists f. split_and!; [reflexivity | now left | assumption].
Qed.

Lemma slice_to_nonneg {A} (k : Z) (l : list A) :
  0 <= k → slice_to k l = take (Z.to_nat k) l.
Proof. intros Hk. unfold slice_to. now rewrite (proj2 (Z.leb_le 0 k) Hk). Qed.

Lemma slice_to_neg {A} (k : Z) (l : list A) :
  k < 0 → slice_to k l = take (length l - Z.to_nat (- k)) l.
Proof. intros Hk. unfold slice_to. now rewrite (proj2 (Z.leb_gt 0 k) Hk). Qed.

(** The ranked paths are stored paths. *)
Lemma top_files_keys (self : LambdaProjectIndexer) (q : ndarray) (top_k : Z) (fs : string * pyfloat) :
  dict_wf (embeddings self) →
  fs ∈ top_files self q top_k →
  ∃ e, (fst fs, e) ∈ embeddings self ∧ snd fs = cosine q e.
Proof.
  intros Hwf Hin. unfold top_files, slice_to in Hin.
  assert (Hs : fs ∈ similarities q (embeddings self)).
  { rewrite <- (sorted_reverse_perm snd).
    destruct (0 <=? top_k); eapply subseteq_take; exact Hin. }
  rewrite similarities_wf in Hs by assumption.
  apply list_elem_of_fmap in Hs as ([f e] & -> & Hfe).
  now exists e.
Qed.
End Search.

Lemma top_files_lookup `{Numpy} (self : LambdaProjectIndexer) (q : ndarray) (top_k : Z)
    (results : list SearchResult) (i : nat) (r : SearchResult) :
  0 <= top_k →
  Forall2 (built_from (metadata self)) (top_files self q top_k) results →
  results !! i = Some r →
  ∃ fs, sorted_reverse snd (similarities q (embeddings self)) !! i = Some fs
        ∧ file r = fst fs ∧ score r = snd fs.
Proof.
  intros Hk Hall Hi.
  destruct (Forall2_lookup_r _ _ _ _ _ Hall Hi) as (fs & Hfs & Hfile & Hscore & _).
  unfold top_files in Hfs. rewrite slice_to_nonneg in Hfs by assumption.
  apply lookup_take_Some in Hfs as [Hfs _].
  now exists fs.
Qed.

Lemma collect_results_take (md : dict FileMeta) (top : list (string * pyfloat)) :
  ∀ n results,
    collect_results md top = Ok results →
    collect_results md (take n top) = Ok (take n results).
Proof.
  induction top as [|[f s] top IH]; intros n results Hres; simpl in Hres.
  - inversion Hres. now rewrite !take_nil.
  - destruct (dict_getitem md f) as [m|e] eqn:Hm; simpl in Hres; [| discriminate].
    destruct (collect_results md top) as [rest|e] eqn:Hrest; simpl in Hres;
      [| discriminate].
    inversion Hres; subst. destruct n as [|n]; simpl; [reflexivity |].
    rewrite Hm. simpl. now rewrite (IH n rest eq_refl).
Qed.

(** C1, as the code has it.  For every index store in which each stored
    path has a metadata entry, and every query that the embedder embeds
    such that no cosine score is [nan] (which a stored vector or a query
    embedding of norm zero gives), [search(query, top_k)] with
    [top_k >= 0] returns a sequence of length
    [min(top_k, number of stored embeddings)]; each entry carries the
    score that numpy computes for the query and the stored vector of its
    path, and the metadata of that path; the scores are non-increasing
    under Python's [<=]; entries whose scores are equal under Python's
    [==] appear in the insertion order of their paths in
    [self.embeddings]. *)
Theorem search_ranking `{Numpy} (self : LambdaProjectIndexer) (query : text)
    (top_k : Z) (query_embedding : ndarray) :
  dict_wf (embeddings self) →
  (∀ path, path ∈ dict_keys (embeddings self) →
           is_Some (dict_get (metadata self) path)) →
  _embed_query self query = Ok query_embedding →
  Forall (fun fe => is_nan (cosine query_embedding (snd fe)) = false)
         (embeddings self) →
  0 <= top_k →
  ∃ results,
    search self query top_k = Ok results
    ∧ length results = Nat.min (Z.to_nat top_k) (length (embeddings self))
    ∧ (∀ r, r ∈ results →
         ∃ e, dict_get (embeddings self) (file r) = Some e
              ∧ score r = cosine query_embedding e
              ∧ dict_get (metadata self) (file r) = Some (result_metadata r))
    ∧ (∀ i j ri rj, (i < j)%nat →
         results !! i = Some ri → results !! j = Some rj →
         pyfloat_le (score rj) (score ri) = true)
    ∧ (∀ i j ri rj, (i < j)%nat →
         results !! i = Some ri → results !! j = Some rj →
         pyfloat_eq (score ri) (score rj) = true →
         ∃ p q, (p < q)%nat
                ∧ dict_keys (embeddings self) !! p = Some (file ri)
                ∧ dict_keys (embeddings self) !! q = Some (file rj)).
Proof.
  intros Hwf Hcov Hquery Hnum Hk.
  destruct (collect_results_ok (metadata self)
              (top_files self query_embedding top_k)) as (results & Hres & Hall).
  { intros fs Hin.
    destruct (top_files_keys _ _ _ _ Hwf Hin) as (e & He & _).
    apply Hcov. unfold dict_keys. apply list_elem_of_fmap.
    exists (fst fs, e). split; [reflexivity | assumption]. }
  assert (Hsorted : StronglySorted (ge_key snd)
            (sorted_reverse snd (similarities query_embedding (embeddings self)))).
  { apply sorted_reverse_sorted. rewrite similarities_wf by assumption.
    apply Forall_fmap. eapply Forall_impl; [exact Hnum |]. now intros [f e]. }
  exists results. split_and!.
  - unfold search. rewrite Hquery. simpl. exact Hres.
  - rewrite <- (Forall2_length _ _ _ Hall). unfold top_files.
    rewrite slice_to_nonneg by assumption.
    rewrite length_take, sorted_reverse_length, similarities_wf by assumption.
    now rewrite length_map.
  - intros r Hr. apply list_elem_of_lookup in Hr as [i Hi].
    destruct (Forall2_lookup_r _ _ _ _ _ Hall Hi) as (fs & Hfs & Hfile & Hscore & Hmd).
    apply list_elem_of_lookup_2 in Hfs.
    destruct (top_files_keys _ _ _ _ Hwf Hfs) as (e & He & Hs).
    exists e. rewrite Hfile, Hscore.
    split_and!; [now apply dict_get_elem | assumption | assumption].
  - intros i j ri rj Hij Hi Hj.
    destruct (top_files_lookup _ _ _ _ _ _ Hk Hall Hi) as (fi & Hfi & _ & ->).
    destruct (top_files_lookup _ _ _ _ _ _ Hk Hall Hj) as (fj & Hfj & _ & ->).
    exact (StronglySorted_lookup _ _ Hsorted i j fi fj Hij Hfi Hfj).
  - intros i j ri rj Hij Hi Hj Htie.
    destruct (top_files_lookup _ _ _ _ _ _ Hk Hall Hi) as (fi & Hfi & Hri & Hsi).
    destruct (top_files_lookup _ _ _ _ _ _ Hk Hall Hj) as (fj & Hfj & Hrj & Hsj).
    rewrite Hsi, Hsj in Htie.
    destruct (sorted_reverse_stable snd _ i j fi fj Hij Hfi Hfj Htie)
      as (p & q & Hpq & Hp & Hq).
    rewrite similarities_wf in Hp, Hq by assumption.
    apply list_lookup_fmap_Some in Hp as (ep & -> & Hep).
    apply list_lookup_fmap_Some in Hq as (eq & -> & Heq).
    exists p, q. unfold dict_keys. rewrite Hri, Hrj. simpl.
    split_and!; [assumption | |].
    + apply list_lookup_fmap_Some. now exists ep.
    + apply list_lookup_fmap_Some. now exists eq.
Qed.

Lemma search_ranking_witness :
  dict_wf (embeddings example_store)
  ∧ Forall (fun fe => is_nan (@cosine example_numpy [113; 1]%Q (snd fe)) = false)
           (embeddings example_store)
  ∧ 0 <= 2
  ∧ ∃ results,
      @search example_numpy example_store (of_string "q") 2 = Ok results
      ∧ length results = Nat.min (Z.to_nat 2) (length (embeddings example_store))
      ∧ (∀ r, r ∈ results →
           ∃ e, dict_get (embeddings example_store) (file r) = Some e
                ∧ score r = @cosine example_numpy [113; 1]%Q e
                ∧ dict_get (metadata example_store) (file r)
                    = Some (result_metadata r))
      ∧ (∀ i j ri rj, (i < j)%nat →
           results !! i = Some ri → results !! j = Some rj →
           pyfloat_le (score rj) (score ri) = true)
      ∧ (∀ i j ri rj, (i < j)%nat →
           results !! i = Some ri → results !! j = Some rj →
           pyfloat_eq (score ri) (score rj) = true →
           ∃ p q, (p < q)%nat
                  ∧ dict_keys (embeddings example_store) !! p = Some (file ri)
                  ∧ dict_keys (embeddings example_store) !! q = Some (file rj)).
Proof.
  assert (Hwf : dict_wf (embeddings example_store)).
  { unfold dict_wf. apply (bool_decide_unpack _). vm_compute. exact I. }
  assert (Hnum : Forall (fun fe => is_nan (@cosine example_numpy [113; 1]%Q (snd fe)) = false)
                        (embeddings example_store)).
  { repeat constructor. }
  split; [exact Hwf |]. split; [exact Hnum |]. split; [lia |].
  apply (@search_ranking example_numpy example_store (of_string "q") 2 [113; 1]%Q).
  - exact Hwf.
  - intros path Hin. simpl in Hin.
    repeat (apply elem_of_cons in Hin as [-> | Hin]); [| | | now apply elem_of_nil in Hin];
      eexists; reflexivity.
  - reflexivity.
  - exact Hnum.
  - lia.
Defined.

(** The ranking of the example: the tie between [a.py] and [c.txt] is
    resolved by insertion order. *)
Example search_example :
  map file <$> @search example_numpy example_store (of_string "q") 3
    = Ok ["a.py"; "c.txt"; "b.md"].
Proof. reflexivity. Qed.

(** A vector of norm zero scores [nan]. *)
Example zero_norm_scores_nan :
  @cosine example_numpy [113; 1]%Q [0; 0]%Q = NaN.
Proof. reflexivity. Qed.

(** C1 fails as stated, in two ways.  The store obtained by [load_index]
    from a pair of artifacts that do not match holds one embedding, and
    [search] with [top_k = 1] raises [KeyError] instead of returning one
    result.  And in a store with a vector of norm zero the score of that
    vector is [nan]: the scores of the three stored files are -1, [nan]
    and 1 in stored order, every comparison with [nan] is false, so
    [sorted] finds nothing to move (the reversed list is one ascending
    run for it, as it is for the insertion sort) and the results come in
    stored order, the score -1 before the score 1. *)
Lemma search_ranking_counterexample :
  snd (load_index (LambdaProjectIndexer_init example_model) "lambda_index"
                  example_mismatched_disk) = Ok tt
  ∧ @search example_numpy example_mismatched (of_string "q") 1
      = Raise (KeyError "a.py")
  ∧ (¬ ∃ results,
        @search example_numpy example_mismatched (of_string "q") 1 = Ok results
        ∧ length results
            = Nat.min (Z.to_nat 1) (length (embeddings example_mismatched)))
  ∧ map (fun r => (file r, score r))
      <$> @search example_numpy example_zero_norm (of_string "q") 3
    = Ok [("n.py", Num (-113 # 113)); ("z.py", NaN); ("p.py", Num (113 # 113))]
  ∧ ¬ ∃ results,
        @search example_numpy example_zero_norm (of_string "q") 3 = Ok results
        ∧ ∀ i j ri rj, (i < j)%nat →
            results !! i = Some ri → results !! j = Some rj →
            pyfloat_le (score rj) (score ri) = true.
Proof.
  split; [reflexivity |]. split; [reflexivity |]. split.
  { intros (results & Hres & _). discriminate Hres. }
  split; [reflexivity |].
  intros (results & Hres & Hsorted).
  vm_compute in Hres. injection Hres as <-.
  specialize (Hsorted 0%nat 2%nat _ _ (Nat.lt_0_2) eq_refl eq_refl).
  discriminate Hsorted.
Qed.

(** C8, as the code has it.  For a query that the embedder embeds,
    [search(query, top_k)] with [top_k = 0] returns the empty sequence for
    every index store, and so does a negative [top_k] when the store holds
    at most [-top_k] embeddings.  With [top_k < 0] in general (each stored
    path having metadata) the slice [[:top_k]] drops the last [-top_k]
    entries: the result is the full ranking, which [search] returns when
    asked for as many results as there are stored embeddings, without its
    last [-top_k] entries. *)
Theorem search_top_k_nonpositive `{Numpy} (self : LambdaProjectIndexer)
    (query : text) (top_k : Z) (query_embedding : ndarray) :
  _embed_query self query = Ok query_embedding →
  top_k <= 0 →
  (top_k = 0 ∨ (length (embeddings self) ≤ Z.to_nat (- top_k))%nat →
   search self query top_k = Ok [])
  ∧ (dict_wf (embeddings self) →
     (∀ path, path ∈ dict_keys (embeddings self) →
              is_Some (dict_get (metadata self) path)) →
     top_k < 0 →
     ∃ ranking,
       search self query (Z.of_nat (length (embeddings self))) = Ok ranking
       ∧ length ranking = length (embeddings self)
       ∧ search self query top_k
           = Ok (take (length ranking - Z.to_nat (- top_k)) ranking)).
Proof.
  intros Hquery Hk. split.
  - intros Hsmall. unfold search. rewrite Hquery. simpl. unfold top_files.
    destruct (decide (top_k = 0)) as [-> | Hne].
    + reflexivity.
    + destruct Hsmall as [? | Hsmall]; [contradiction |].
      rewrite slice_to_neg by lia. rewrite sorted_reverse_length.
      pose proof (similarities_length query_embedding (embeddings self)) as Hlen.
      replace (length (similarities query_embedding (embeddings self))
                 - Z.to_nat (- top_k))%nat with 0%nat by lia.
      reflexivity.
  - intros Hwf Hcov Hneg.
    set (n := length (embeddings self)).
    set (sorted := sorted_reverse snd (similarities query_embedding (embeddings self))).
    assert (Hlen : length sorted = n).
    { unfold sorted. rewrite sorted_reverse_length, similarities_wf by assumption.
      apply length_map. }
    assert (Hfull : top_files self query_embedding (Z.of_nat n) = sorted).
    { unfold top_files. rewrite slice_to_nonneg by lia.
      apply take_ge. fold sorted. lia. }
    destruct (collect_results_ok (metadata self)
                (top_files self query_embedding (Z.of_nat n))) as (ranking & Hres & Hall).
    { intros fs Hin.
      destruct (top_files_keys _ _ _ _ Hwf Hin) as (e & He & _).
      apply Hcov. unfold dict_keys. apply list_elem_of_fmap.
      exists (fst fs, e). split; [reflexivity | assumption]. }
    assert (Hrank : length ranking = n).
    { rewrite <- (Forall2_length _ _ _ Hall), Hfull. exact Hlen. }
    exists ranking. split_and!.
    + unfold search. rewrite Hquery. simpl. exact Hres.
    + exact Hrank.
    + unfold search. rewrite Hquery. simpl.
      unfold top_files at 1. rewrite slice_to_neg by assumption.
      fold sorted. rewrite Hlen, Hrank.
      apply collect_results_take. now rewrite <- Hfull.
Qed.

Lemma search_top_k_nonpositive_witness :
  -1 <= 0
  ∧ (-1 = 0 ∨ (length (embeddings example_mismatched) ≤ Z.to_nat (- -1))%nat)
  ∧ @search example_numpy example_mismatched (of_string "q") (-1) = Ok []
  ∧ -1 < 0
  ∧ ∃ ranking,
      @search example_numpy example_store (of_string "q")
        (Z.of_nat (length (embeddings example_store))) = Ok ranking
      ∧ length ranking = length (embeddings example_store)
      ∧ @search example_numpy example_store (of_string "q") (-1)
          = Ok (take (length ranking - Z.to_nat (- -1)) ranking).
Proof.
  split; [lia |].
  assert (Hsmall : -1 = 0 ∨ (length (embeddings example_mismatched) ≤ Z.to_nat (- -1))%nat).
  { right. vm_compute. lia. }
  split; [exact Hsmall |]. split.
  - refine (proj1 (@search_top_k_nonpositive example_numpy example_mismatched
                     (of_string "q") (-1) [113; 1]%Q _ _) Hsmall).
    + reflexivity.
    + lia.
  - split; [lia |].
    refine (proj2 (@search_top_k_nonpositive example_numpy example_store
                     (of_string "q") (-1) [113; 1]%Q _ _) _ _ _).
    + reflexivity.
    + lia.
    + unfold dict_wf. apply (bool_decide_unpack _). vm_compute. exact I.
    + intros path Hin. simpl in Hin.
      repeat (apply elem_of_cons in Hin as [-> | Hin]);
        [| | | now apply elem_of_nil in Hin]; eexists; reflexivity.
    + lia.
Defined.

(** C8 fails as stated: with three stored files, [top_k = -1] returns the
    two best results, not the empty sequence. *)
Lemma search_top_k_nonpositive_counterexample :
  -1 <= 0
  ∧ map file <$> @search example_numpy example_store (of_string "q") (-1)
      = Ok ["a.py"; "c.txt"]
  ∧ @search example_numpy example_store (of_string "q") (-1) ≠ Ok [].
Proof.
  split; [lia |]. split; [reflexivity |]. discriminate.
Qed.

(** C10.  A path that ranks among the entries selected by [top_k] and has
    no entry in [self.metadata] makes [search] raise [KeyError] (for the
    first such path in rank order) instead of returning results; the ranked
    paths are keys of [self.embeddings] ([top_files_keys]).  And
    [load_index] compares nothing: whenever both artifacts exist it loads
    them as they are, whatever their keys. *)
Theorem search_requires_metadata `{Numpy} (self : LambdaProjectIndexer)
    (query : text) (top_k : Z) (query_embedding : ndarray) (path : string) :
  _embed_query self query = Ok query_embedding →
  path ∈ map fst (top_files self query_embedding top_k) →
  dict_get (metadata self) path = None →
  (∃ missing,
     search self query top_k = Raise (KeyError missing)
     ∧ missing ∈ map fst (top_files self query_embedding top_k)
     ∧ dict_get (metadata self) missing = None)
  ∧ (∀ (fresh : LambdaProjectIndexer) (input_path : string) (d : Disk)
       (arrays : list (string * ndarray)) (doc : list (string * FileMeta)),
       disk_files d !! (input_path +:+ "_embeddings.npz") = Some (NpzFile arrays) →
       disk_files d !! (input_path +:+ "_metadata.json") = Some (JsonFile doc) →
       load_index fresh input_path d
         = ({| model := model fresh;
               embeddings := dict_of_items arrays;
               metadata := dict_of_items doc |}, Ok tt)).
Proof.
  intros Hquery Hin Hnone. split.
  - unfold search. rewrite Hquery. simpl.
    now apply collect_results_KeyError with path.
  - intros fresh input_path d arrays doc Hnpz Hjson.
    unfold load_index, np_load, json_load. now rewrite Hnpz, Hjson.
Qed.

Lemma search_requires_metadata_witness :
  "a.py" ∈ dict_keys (embeddings example_mismatched)
  ∧ dict_get (metadata example_mismatched) "a.py" = None
  ∧ "a.py" ∈ map fst (@top_files example_numpy example_mismatched [113; 1]%Q 5)
  ∧ @search example_numpy example_mismatched (of_string "q") 5
      = Raise (KeyError "a.py")
  ∧ load_index (LambdaProjectIndexer_init example_model) "lambda_index"
               example_mismatched_disk
      = ({| model := example_model;
            embeddings := [("a.py", [1; 0]%Q)];
            metadata := [] |}, Ok tt).
Proof.
  assert (Hin : "a.py" ∈ map fst (@top_files example_numpy example_mismatched [113; 1]%Q 5)).
  { vm_compute. now left. }
  assert (Hnone : dict_get (metadata example_mismatched) "a.py" = None) by reflexivity.
  destruct (@search_requires_metadata example_numpy example_mismatched
              (of_string "q") 5 [113; 1]%Q "a.py" eq_refl Hin Hnone)
    as [(missing & Hraise & Hmissing & _) Hload].
  split_and!.
  - vm_compute. now left.
  - exact Hnone.
  - exact Hin.
  - rewrite Hraise. vm_compute in Hmissing.
    apply list_elem_of_singleton in Hmissing. now subst missing.
  - apply (Hload (LambdaProjectIndexer_init example_model) "lambda_index"
                 example_mismatched_disk [("a.py", [1; 0]%Q)] []); reflexivity.
Defined.


(** ** The mean of the chunk vectors *)

Lemma np_add_length (a b : ndarray) (D : nat) :
  length a = D → length b = D → length (np_add a b) = D.
Proof.
  intros Ha Hb. unfold np_add. rewrite length_zip_with. lia.
Qed.

Lemma np_add_nth (a b : ndarray) (i : nat) :
  length a = length b →
  (i < length a)%nat →
  nth i (np_add a b) 0%Q = (nth i a 0 + nth i b 0)%Q.
Proof.
  revert b i. induction a as [|x a IH]; intros [|y b] i Hlen Hi; simpl in *; try lia.
  destruct i as [|i]; [reflexivity |].
  apply IH; lia.
Qed.

Lemma fold_np_add_length (rest : list ndarray) (D : nat) :
  ∀ a, length a = D → Forall (fun v => length v = D) rest →
       length (fold_left np_add rest a) = D.
Proof.
  induction rest as [|b rest IH]; intros a Ha Hrest; simpl; [assumption |].
  inversion Hrest; subst. apply IH; [| assumption].
  now apply np_add_length.
Qed.

Lemma fold_np_add_nth (rest : list ndarray) (D i : nat) :
  (i < D)%nat →
  ∀ a, length a = D → Forall (fun v => length v = D) rest →
       (nth i (fold_left np_add rest a) 0
          == nth i a 0 + foldr Qplus 0 (map (fun v => nth i v 0) rest))%Q.
Proof.
  intros Hi.
  induction rest as [|b rest IH]; intros a Ha Hrest; simpl.
  - now rewrite Qplus_0_r.
  - inversion Hrest as [|? ? Hb Hrest']; subst.
    rewrite IH; [| now apply np_add_length | assumption].
    rewrite np_add_nth by lia.
    now rewrite Qplus_assoc.
Qed.

Lemma np_mean_axis0_spec (vectors : list ndarray) (D : nat) :
  vectors ≠ [] →
  Forall (fun v => length v = D) vectors →
  length (np_mean_axis0 vectors) = D
  ∧ ∀ i, (i < D)%nat →
         (nth i (np_mean_axis0 vectors) 0 == elementwise_mean vectors i)%Q.
Proof.
  intros Hne Hall.
  destruct vectors as [|a rest]; [contradiction |].
  inversion Hall as [|? ? Ha Hrest]; subst.
  unfold np_mean_axis0, elementwise_mean, np_sum_axis0.
  assert (Hlen : length (fold_left np_add rest a) = length a)
    by now apply fold_np_add_length.
  split.
  - now rewrite length_map.
  - intros i Hi.
    set (n := inject_Z (Z.of_nat (length (a :: rest)))).
    rewrite (nth_indep _ 0%Q ((fun s => s / n)%Q 0%Q)) by (rewrite length_map; lia).
    rewrite (map_nth (fun s => s / n)%Q).
    rewrite (fold_np_add_nth rest (length a) i Hi a eq_refl Hrest).
    reflexivity.
Qed.

Lemma chunk_text_nonempty (content : text) (max_length : Z) :
  _chunk_text content max_length ≠ [].
Proof.
  unfold _chunk_text.
  destruct (chunk_loop max_length (str_split content) [] []) as [chunks cur].
  destruct cur as [|w cur]; destruct chunks as [|c chunks]; simpl; discriminate.
Qed.

(** The loop of [embed_file] succeeds exactly when every chunk embeds, and
    then returns, chunk by chunk, the mean of the token rows. *)
Lemma embed_chunks_spec (self : LambdaProjectIndexer) (chunks : list text)
    (vectors : list ndarray) :
  embed_chunks self chunks = Ok vectors
  ↔ Forall2 (fun chunk vec =>
               ∃ hidden, model self chunk = Ok hidden ∧ vec = np_mean_axis0 hidden)
            chunks vectors.
Proof.
  revert vectors. induction chunks as [|chunk chunks IH]; intros vectors; simpl.
  - split.
    + intros Heq. inversion Heq. constructor.
    + intros Hall. now inversion Hall.
  - split.
    + intros Heq.
      destruct (model self chunk) as [hidden|e] eqn:Hm; simpl in Heq; [| discriminate].
      destruct (embed_chunks self chunks) as [rest|e] eqn:Hrest; simpl in Heq;
        [| discriminate].
      inversion Heq; subst.
      constructor; [now exists hidden | now apply IH].
    + intros Hall. inversion Hall as [|? vec ? rest (hidden & Hm & ->) Hrest]; subst.
      apply IH in Hrest. rewrite Hm. simpl. now rewrite Hrest.
Qed.

(** C4.  For every file whose chunks all embed (to vectors of one
    dimension [D]), the vector that [index_project] stores under the path of
    the file is the element-wise arithmetic mean of the chunk vectors: every
    chunk has weight [1/N], whatever its length. *)
Theorem stored_vector_is_chunk_mean (self : LambdaProjectIndexer) (proj : Project)
    (v : visit) (name : string) (content : text) (vectors : list ndarray) (D : nat) :
  str_in (path_suffix name) extensions = true →
  read_text proj (os_path_join (root v) name) = Ok content →
  embed_chunks self (_chunk_text content 512) = Ok vectors →
  Forall (fun vec => length vec = D) vectors →
  ∃ stored,
    embed_file self proj (os_path_join (root v) name) = Ok stored
    ∧ dict_get (embeddings (index_file proj v self name))
               (relpath_below (below v) name) = Some stored
    ∧ length stored = D
    ∧ ∀ i, (i < D)%nat → (nth i stored 0 == elementwise_mean vectors i)%Q.
Proof.
  intros Hext Hread Hchunks Hdim.
  assert (Hne : vectors ≠ []).
  { intros ->. apply embed_chunks_spec in Hchunks.
    inversion Hchunks as [Hnil |]. symmetry in Hnil.
    now apply chunk_text_nonempty in Hnil. }
  destruct (np_mean_axis0_spec vectors D Hne Hdim) as [Hlen Hmean].
  assert (Hfile : embed_file self proj (os_path_join (root v) name)
                    = Ok (np_mean_axis0 vectors)).
  { unfold embed_file. rewrite Hread. simpl. now rewrite Hchunks. }
  exists (np_mean_axis0 vectors). split_and!; [assumption | | assumption | assumption].
  unfold index_file. rewrite Hext, Hfile.
  destruct (getsize proj (os_path_join (root v) name)); simpl;
    apply dict_get_set_eq.
Qed.

Lemma stored_vector_is_chunk_mean_witness :
  let self := LambdaProjectIndexer_init example_model in
  let v := {| root := "./"; below := []; files := ["long.txt"] |} in
  let vectors := [[77280 # 1023; 1023 # 1023]; [119; 1]]%Q in
  length (_chunk_text example_long_text 512) = 2%nat
  ∧ embed_chunks self (_chunk_text example_long_text 512) = Ok vectors
  ∧ Forall (fun vec => length vec = 2%nat) vectors
  ∧ ∃ stored,
      embed_file self example_long_project (os_path_join (root v) "long.txt") = Ok stored
      ∧ dict_get (embeddings (index_file example_long_project v self "long.txt"))
                 (relpath_below (below v) "long.txt") = Some stored
      ∧ length stored = 2%nat
      ∧ ∀ i, (i < 2)%nat → (nth i stored 0 == elementwise_mean vectors i)%Q.
Proof.
  intros self v vectors.
  assert (Hchunks : embed_chunks self (_chunk_text example_long_text 512) = Ok vectors)
    by (vm_compute; reflexivity).
  assert (Hdim : Forall (fun vec => length vec = 2%nat) vectors)
    by (repeat constructor).
  split_and!.
  - vm_compute. reflexivity.
  - exact Hchunks.
  - exact Hdim.
  - exact (stored_vector_is_chunk_mean self example_long_project v "long.txt"
             example_long_text vectors 2 eq_refl eq_refl Hchunks Hdim).
Defined.


(** ** Indexing one file, and the walk *)

Lemma index_file_model (proj : Project) (v : visit) (self : LambdaProjectIndexer)
    (name : string) :
  model (index_file proj v self name) = model self.
Proof.
  unfold index_file.
  destruct (str_in _ extensions); [| reflexivity].
  destruct (embed_file self proj _); [| reflexivity].
  destruct (getsize proj _); reflexivity.
Qed.

Lemma index_files_model (proj : Project) (v : visit) (names : list string) :
  ∀ self, model (fold_left (index_file proj v) names self) = model self.
Proof.
  induction names as [|name names IH]; intros self; simpl; [reflexivity |].
  now rewrite IH, index_file_model.
Qed.

Lemma index_visits_model (proj : Project) (visits : list visit) :
  ∀ self, model (index_visits proj visits self) = model self.
Proof.
  unfold index_visits.
  induction visits as [|v visits IH]; intros self; simpl; [reflexivity |].
  now rewrite IH, index_files_model.
Qed.

Lemma embed_chunks_model (self self' : LambdaProjectIndexer) (chunks : list text) :
  model self = model self' → embed_chunks self chunks = embed_chunks self' chunks.
Proof.
  intros Hm. induction chunks as [|chunk chunks IH]; simpl; [reflexivity |].
  now rewrite Hm, IH.
Qed.

Lemma embed_file_model (self self' : LambdaProjectIndexer) (proj : Project)
    (filepath : string) :
  model self = model self' → embed_file self proj filepath = embed_file self' proj filepath.
Proof.
  intros Hm. unfold embed_file.
  destruct (read_text proj filepath); simpl; [| reflexivity].
  now rewrite (embed_chunks_model self self').
Qed.

(** The [except] branch: a file whose embedding raises leaves the index as
    it was. *)
Lemma index_file_failed (proj : Project) (v : visit) (self : LambdaProjectIndexer)
    (name : string) (e : exn) :
  embed_file self proj (os_path_join (root v) name) = Raise e →
  index_file proj v self name = self.
Proof.
  intros Hfail. unfold index_file. rewrite Hfail.
  now destruct (str_in _ extensions).
Qed.

Lemma index_file_embedded (proj : Project) (v : visit) (self : LambdaProjectIndexer)
    (name : string) (emb : ndarray) :
  str_in (path_suffix name) extensions = true →
  embed_file self proj (os_path_join (root v) name) = Ok emb →
  dict_get (embeddings (index_file proj v self name)) (relpath_below (below v) name)
    = Some emb.
Proof.
  intros Hext Hemb. unfold index_file. rewrite Hext, Hemb.
  destruct (getsize proj _); simpl; apply dict_get_set_eq.
Qed.

(** Indexing a file touches no other path. *)
Lemma index_file_other (proj : Project) (v : visit) (self : LambdaProjectIndexer)
    (name path : string) :
  relpath_below (below v) name ≠ path →
  dict_get (embeddings (index_file proj v self name)) path
    = dict_get (embeddings self) path
  ∧ dict_get (metadata (index_file proj v self name)) path
    = dict_get (metadata self) path.
Proof.
  intros Hne. unfold index_file.
  destruct (str_in _ extensions); [| now split].
  destruct (embed_file self proj _); [| now split].
  destruct (getsize proj _); simpl;
    rewrite ?dict_get_set_ne by assumption; now split.
Qed.

(** Indexing never removes a path. *)
Lemma index_file_keeps (proj : Project) (v : visit) (self : LambdaProjectIndexer)
    (name path : string) :
  (is_Some (dict_get (embeddings self) path) →
   is_Some (dict_get (embeddings (index_file proj v self name)) path))
  ∧ (is_Some (dict_get (metadata self) path) →
     is_Some (dict_get (metadata (index_file proj v self name)) path)).
Proof.
  destruct (decide (relpath_below (below v) name = path)) as [<- | Hne].
  - unfold index_file.
    destruct (str_in _ extensions); [| now split].
    destruct (embed_file self proj _); [| now split].
    destruct (getsize proj _); simpl; rewrite ?dict_get_set_eq; split; eauto.
  - destruct (index_file_other proj v self name path Hne) as [-> ->]. now split.
Qed.

Lemma index_files_other (proj : Project) (v : visit) (names : list string) (path : string) :
  path ∉ map (relpath_below (below v)) names →
  ∀ self,
    dict_get (embeddings (fold_left (index_file proj v) names self)) path
      = dict_get (embeddings self) path
    ∧ dict_get (metadata (fold_left (index_file proj v) names self)) path
      = dict_get (metadata self) path.
Proof.
  induction names as [|name names IH]; intros Hnotin self; simpl; [now split |].
  simpl in Hnotin. apply not_elem_of_cons in Hnotin as [Hne Hnotin].
  destruct (IH Hnotin (index_file proj v self name)) as [-> ->].
  apply index_file_other. congruence.
Qed.

Lemma index_visits_other (proj : Project) (visits : list visit) (path : string) :
  path ∉ walk_paths visits →
  ∀ self,
    dict_get (embeddings (index_visits proj visits self)) path
      = dict_get (embeddings self) path
    ∧ dict_get (metadata (index_visits proj visits self)) path
      = dict_get (metadata self) path.
Proof.
  unfold index_visits, walk_paths.
  induction visits as [|v visits IH]; intros Hnotin self; simpl; [now split |].
  simpl in Hnotin. apply not_elem_of_app in Hnotin as [Hv Hrest].
  destruct (IH Hrest (fold_left (index_file proj v) (files v) self)) as [-> ->].
  now apply index_files_other.
Qed.

Lemma index_files_keeps (proj : Project) (v : visit) (names : list string) (path : string) :
  ∀ self,
    is_Some (dict_get (embeddings self) path) →
    is_Some (dict_get (embeddings (fold_left (index_file proj v) names self)) path).
Proof.
  induction names as [|name names IH]; intros self Hsome; simpl; [assumption |].
  apply IH. now apply index_file_keeps.
Qed.

Lemma index_visits_keeps (proj : Project) (visits : list visit) (path : string) :
  ∀ self,
    is_Some (dict_get (embeddings self) path) →
    is_Some (dict_get (embeddings (index_visits proj visits self)) path).
Proof.
  unfold index_visits.
  induction visits as [|v visits IH]; intros self Hsome; simpl; [assumption |].
  apply IH. now apply index_files_keeps.
Qed.

Lemma index_visits_app (proj : Project) (before after : list visit)
    (self : LambdaProjectIndexer) :
  index_visits proj (before ++ after) self
    = index_visits proj after (index_visits proj before self).
Proof. unfold index_visits. apply fold_left_app. Qed.

(** Every listed file with an indexed extension whose embedding succeeds
    ends up in the index, whatever happens to the other files. *)
Lemma index_visits_embedded (proj : Project) (visits : list visit)
    (self : LambdaProjectIndexer) (v : visit) (name : string) (emb : ndarray) :
  v ∈ visits →
  name ∈ files v →
  str_in (path_suffix name) extensions = true →
  embed_file self proj (os_path_join (root v) name) = Ok emb →
  is_Some (dict_get (embeddings (index_visits proj visits self))
                    (relpath_below (below v) name)).
Proof.
  intros Hv Hname Hext Hemb.
  apply list_elem_of_split in Hv as (before & after & ->).
  apply list_elem_of_split in Hname as (earlier & later & Hfiles).
  rewrite index_visits_app.
  change (index_visits proj (v :: after) ?s)
    with (index_visits proj after (fold_left (index_file proj v) (files v) s)).
  apply index_visits_keeps.
  rewrite Hfiles, fold_left_app. simpl.
  apply index_files_keeps.
  exists emb. apply index_file_embedded; [assumption |].
  rewrite <- Hemb. apply embed_file_model.
  now rewrite index_files_model, index_visits_model.
Qed.

(** ** The loop of [index_project] and its prints *)

Lemma print_index_file_state (print : message → result unit) (proj : Project)
    (v : visit) (self : LambdaProjectIndexer) (name : string) :
  fst (WithPrints.index_file print proj v self name) = index_file proj v self name.
Proof.
  unfold WithPrints.index_file, index_file.
  destruct (str_in _ extensions); [| reflexivity].
  destruct (embed_file self proj _); [| reflexivity].
  destruct (getsize proj _); [| reflexivity].
  now destruct (print (Indexed _)).
Qed.

Lemma print_index_files_ok (print : message → result unit) (proj : Project)
    (v : visit) (names : list string) :
  ∀ self s,
    WithPrints.index_files print proj v names self = (s, Ok tt) →
    s = fold_left (index_file proj v) names self.
Proof.
  induction names as [|name names IH]; intros self s Hrun; simpl in *.
  - now inversion Hrun.
  - rewrite <- (print_index_file_state print).
    destruct (WithPrints.index_file print proj v self name) as [s' [[]|e]];
      [| discriminate Hrun].
    now apply IH.
Qed.

Lemma print_index_visits_ok (print : message → result unit) (proj : Project)
    (visits : list visit) :
  ∀ self s,
    WithPrints.index_visits print proj visits self = (s, Ok tt) →
    s = index_visits proj visits self.
Proof.
  unfold index_visits.
  induction visits as [|v visits IH]; intros self s Hrun; simpl in *.
  - now inversion Hrun.
  - destruct (WithPrints.index_files print proj v (files v) self) as [s' [[]|e]] eqn:Hv;
      [| discriminate Hrun].
    apply print_index_files_ok in Hv. subst s'. now apply IH.
Qed.

Lemma print_index_files_app (print : message → result unit) (proj : Project)
    (v : visit) (earlier later : list string) :
  ∀ self,
    WithPrints.index_files print proj v (earlier ++ later) self
    = match WithPrints.index_files print proj v earlier self with
      | (s, Ok _) => WithPrints.index_files print proj v later s
      | (s, Raise e) => (s, Raise e)
      end.
Proof.
  induction earlier as [|name earlier IH]; intros self; simpl; [reflexivity |].
  destruct (WithPrints.index_file print proj v self name) as [s [[]|e]];
    [apply IH | reflexivity].
Qed.

Lemma print_index_visits_app (print : message → result unit) (proj : Project)
    (before after : list visit) :
  ∀ self,
    WithPrints.index_visits print proj (before ++ after) self
    = match WithPrints.index_visits print proj before self with
      | (s, Ok _) => WithPrints.index_visits print proj after s
      | (s, Raise e) => (s, Raise e)
      end.
Proof.
  induction before as [|v before IH]; intros self; simpl; [reflexivity |].
  destruct (WithPrints.index_files print proj v (files v) self) as [s [[]|e]];
    [apply IH | reflexivity].
Qed.

(** On a standard output that takes every message the loop is
    [index_project] as modelled without its prints. *)
Lemma index_project_prints_accepted (print : message → result unit)
    (self : LambdaProjectIndexer) (proj : Project) (project_path : string) :
  (∀ m, print m = Ok tt) →
  WithPrints.index_project print self proj project_path
    = (index_project self proj project_path, Ok tt).
Proof.
  intros Hprint. unfold WithPrints.index_project, index_project, index_visits.
  generalize (project_walk proj project_path) as visits. intros visits. revert self.
  assert (Hfile : ∀ v self name,
            WithPrints.index_file print proj v self name
              = (index_file proj v self name, Ok tt)).
  { intros v self name. unfold WithPrints.index_file, index_file.
    destruct (str_in _ extensions); [| reflexivity].
    destruct (embed_file self proj _); [| now rewrite Hprint].
    destruct (getsize proj _); now rewrite Hprint. }
  assert (Hfiles : ∀ v names self,
            WithPrints.index_files print proj v names self
              = (fold_left (index_file proj v) names self, Ok tt)).
  { intros v names. induction names as [|name names IH]; intros self; simpl;
      [reflexivity |].
    now rewrite Hfile, IH. }
  induction visits as [|v visits IH]; intros self; simpl; [reflexivity |].
  now rewrite Hfiles, IH.
Qed.

(** C7: the code departs from the claim.  The [try]/[except Exception]
    around each file is there to isolate its failure, but the [print] in
    the [except] branch is itself unguarded.  When the loop reaches a file
    whose embedding raises and the message that reports it cannot be
    printed, [index_project] ends there with the exception of the
    [print]: the index is the one built from the files before it, and no
    file after it is looked at. *)
Theorem unprinted_failure_aborts (print : message → result unit)
    (self : LambdaProjectIndexer) (proj : Project) (project_path : string)
    (before after : list visit) (v : visit) (earlier later : list string)
    (name : string) (e e' : exn) (s reached : LambdaProjectIndexer) :
  project_walk proj project_path = before ++ v :: after →
  files v = earlier ++ name :: later →
  WithPrints.index_visits print proj before self = (s, Ok tt) →
  WithPrints.index_files print proj v earlier s = (reached, Ok tt) →
  str_in (path_suffix name) extensions = true →
  embed_file reached proj (os_path_join (root v) name) = Raise e →
  print (Failed (os_path_join (root v) name) e) = Raise e' →
  WithPrints.index_project print self proj project_path = (reached, Raise e')
  ∧ reached = fold_left (index_file proj v) earlier (index_visits proj before self).
Proof.
  intros Hwalk Hfiles Hbefore Hearlier Hext Hfail Hprint. split.
  - unfold WithPrints.index_project.
    rewrite Hwalk, print_index_visits_app, Hbefore. simpl.
    rewrite Hfiles, print_index_files_app, Hearlier. simpl.
    unfold WithPrints.index_file. now rewrite Hext, Hfail, Hprint.
  - apply print_index_visits_ok in Hbefore. subst s.
    now apply print_index_files_ok in Hearlier.
Qed.

Lemma unprinted_failure_aborts_witness :
  let self := LambdaProjectIndexer_init example_model in
  let v := {| root := "./"; below := []; files := ["a.py"; legacy_name] |} in
  let after := [{| root := "./src"; below := ["src"]; files := ["d.txt"] |}] in
  let reached := index_file example_legacy_project v self "a.py" in
  project_walk example_legacy_project "./" = [] ++ v :: after
  ∧ embed_file reached example_legacy_project (os_path_join "./" legacy_name)
      = Raise (PermissionError ("./" +:+ legacy_name))
  ∧ example_stdout (Failed (os_path_join "./" legacy_name)
                           (PermissionError ("./" +:+ legacy_name)))
      = Raise ValueError
  ∧ WithPrints.index_project example_stdout self example_legacy_project "./"
      = (reached, Raise ValueError)
  ∧ dict_keys (embeddings reached) = ["a.py"]
  ∧ dict_keys (embeddings (index_project self example_legacy_project "./"))
      = ["a.py"; "src/d.txt"].
Proof.
  intros self v after reached.
  assert (Hwalk : project_walk example_legacy_project "./" = [] ++ v :: after)
    by reflexivity.
  assert (Hfail : embed_file reached example_legacy_project (os_path_join (root v) legacy_name)
                    = Raise (PermissionError ("./" +:+ legacy_name))) by reflexivity.
  assert (Hprint : example_stdout (Failed (os_path_join (root v) legacy_name)
                                          (PermissionError ("./" +:+ legacy_name)))
                     = Raise ValueError) by reflexivity.
  split_and!.
  - exact Hwalk.
  - exact Hfail.
  - exact Hprint.
  - refine (proj1 (unprinted_failure_aborts example_stdout self example_legacy_project
                     "./" [] after v ["a.py"] [] legacy_name _ _ self reached
                     Hwalk eq_refl eq_refl _ _ Hfail Hprint)).
    + vm_compute. reflexivity.
    + vm_compute. reflexivity.
  - vm_compute. reflexivity.
  - vm_compute. reflexivity.
Defined.

(** C5, as the code has it.  A re-index only adds and overwrites: for a
    path that the walk of the project no longer lists (the file has been
    deleted), the handler of the deletion event leaves the embedding record
    and the metadata entry of that path exactly as they were. *)
Theorem reindex_keeps_deleted (self : ProjectFileHandler) (event : FileSystemEvent)
    (current_time : Q) (proj : Project) (d : Disk) (path : string) :
  path ∉ walk_paths (project_walk proj (project_path self)) →
  dict_get (embeddings (indexer (fst (on_deleted self event current_time proj d)))) path
    = dict_get (embeddings (indexer self)) path
  ∧ dict_get (metadata (indexer (fst (on_deleted self event current_time proj d)))) path
    = dict_get (metadata (indexer self)) path.
Proof.
  intros Hgone. unfold on_deleted, trigger_reindex.
  destruct (negb (is_directory event)); [| now split].
  destruct (float_lt _ _); [now split |].
  destruct (should_index _); [| now split].
  destruct (save_index _ _ d) as [d' [[]|e]]; simpl;
    now apply index_visits_other.
Qed.

Lemma reindex_keeps_deleted_witness :
  let event := {| src_path := "./a.py"; is_directory := false |} in
  let self' := fst (on_deleted example_handler event 100 example_project_after
                               example_empty_disk) in
  ("a.py" ∉ walk_paths (project_walk example_project_after (project_path example_handler)))
  ∧ dict_get (embeddings (indexer self')) "a.py"
      = dict_get (embeddings (indexer example_handler)) "a.py"
  ∧ dict_get (metadata (indexer self')) "a.py"
      = dict_get (metadata (indexer example_handler)) "a.py".
Proof.
  intros event self'.
  assert (Hgone : "a.py" ∉ walk_paths (project_walk example_project_after
                                         (project_path example_handler))).
  { vm_compute. intros Hin.
    repeat (apply elem_of_cons in Hin as [Heq | Hin]; [discriminate Heq |]).
    now apply elem_of_nil in Hin. }
  split; [exact Hgone |].
  exact (reindex_keeps_deleted example_handler event 100 example_project_after
           example_empty_disk "a.py" Hgone).
Defined.

(** C5 fails as stated: [a.py] is indexed, then deleted; the deletion event
    starts a re-index that completes (the timestamp advances to the time of
    the event), and the index still holds the embedding and the metadata of
    [a.py]. *)
Lemma reindex_keeps_deleted_counterexample :
  let event := {| src_path := "./a.py"; is_directory := false |} in
  let self' := fst (on_deleted example_handler event 100 example_project_after
                               example_empty_disk) in
  ("a.py" ∉ walk_paths (project_walk example_project_after "./"))
  ∧ last_reindex self' = 100%Q
  ∧ dict_keys (embeddings (indexer self')) = ["a.py"; "src/d.txt"]
  ∧ dict_get (metadata (indexer self')) "a.py"
      = Some {| absolute_path := "./a.py"; extension := ".py"; size := 10 |}
  ∧ ¬ (dict_get (embeddings (indexer self')) "a.py" = None
       ∧ dict_get (metadata (indexer self')) "a.py" = None).
Proof.
  intros event self'. split_and!.
  - vm_compute. intros Hin.
    repeat (apply elem_of_cons in Hin as [Heq | Hin]; [discriminate Heq |]).
    now apply elem_of_nil in Hin.
  - vm_compute. reflexivity.
  - vm_compute. reflexivity.
  - vm_compute. reflexivity.
  - intros [_ Hmeta]. vm_compute in Hmeta. discriminate Hmeta.
Qed.


(** ** Persistence *)

Lemma append_inj (p a b : string) : p +:+ a = p +:+ b → a = b.
Proof.
  induction p as [|c p IH]; simpl; intros Heq; [assumption |].
  inversion Heq. now apply IH.
Qed.

Lemma artifact_names_differ (prefix : string) :
  prefix +:+ "_metadata.json" ≠ prefix +:+ "_embeddings.npz".
Proof. intros Heq. apply append_inj in Heq. discriminate Heq. Qed.

Lemma save_index_files (self : LambdaProjectIndexer) (prefix : string) (d d' : Disk) :
  save_index self prefix d = (d', Ok tt) →
  disk_files d' !! (prefix +:+ "_embeddings.npz")
    = Some (NpzFile (dict_of_items (embeddings self)))
  ∧ disk_files d' !! (prefix +:+ "_metadata.json") = Some (JsonFile (metadata self)).
Proof.
  unfold save_index, write_file. simpl.
  destruct (bool_decide _); [discriminate |]. simpl.
  destruct (bool_decide _); [discriminate |].
  intros Heq. inversion Heq; subst; clear Heq. simpl. split.
  - rewrite lookup_insert_ne by apply artifact_names_differ.
    apply lookup_insert_eq.
  - apply lookup_insert_eq.
Qed.

Lemma allclose_refl (atol : Q) (a : ndarray) : (0 <= atol)%Q → allclose atol a a.
Proof.
  intros Htol. unfold allclose.
  induction a as [|x a IH]; constructor; [| assumption].
  assert (E : (x - x == 0)%Q) by ring.
  rewrite E. exact Htol.
Qed.

(** C2.  For every index store, [save_index(prefix)] followed by
    [load_index(prefix)] into a fresh indexer gives an embeddings mapping
    with the same keys (in the same order) and vectors within [1e-6] of
    the saved ones, and the same metadata mapping. *)
Theorem save_load_roundtrip (self : LambdaProjectIndexer) (prefix : string)
    (d d' : Disk) (m : text → result (list ndarray)) :
  dict_wf (embeddings self) →
  dict_wf (metadata self) →
  save_index self prefix d = (d', Ok tt) →
  ∃ loaded,
    load_index (LambdaProjectIndexer_init m) prefix d' = (loaded, Ok tt)
    ∧ dict_keys (embeddings loaded) = dict_keys (embeddings self)
    ∧ (∀ path vec,
         dict_get (embeddings self) path = Some vec →
         ∃ vec', dict_get (embeddings loaded) path = Some vec'
                 ∧ allclose (1 # 1000000) vec vec')
    ∧ metadata loaded = metadata self.
Proof.
  intros Hwf_e Hwf_m Hsave.
  destruct (save_index_files _ _ _ _ Hsave) as [Hnpz Hjson].
  eexists. split.
  - unfold load_index, np_load, json_load. rewrite Hnpz, Hjson. reflexivity.
  - simpl.
    rewrite !(dict_of_items_id (embeddings self)) by assumption.
    rewrite (dict_of_items_id (metadata self)) by assumption.
    split_and!.
    + reflexivity.
    + intros path vec Hget. exists vec. split; [assumption |].
      now apply allclose_refl.
    + reflexivity.
Qed.

Lemma save_load_roundtrip_witness :
  dict_wf (embeddings example_store)
  ∧ dict_wf (metadata example_store)
  ∧ snd (save_index example_store "lambda_index" example_empty_disk) = Ok tt
  ∧ ∃ loaded,
      load_index (LambdaProjectIndexer_init example_model) "lambda_index"
                 (fst (save_index example_store "lambda_index" example_empty_disk))
        = (loaded, Ok tt)
      ∧ dict_keys (embeddings loaded) = dict_keys (embeddings example_store)
      ∧ (∀ path vec,
           dict_get (embeddings example_store) path = Some vec →
           ∃ vec', dict_get (embeddings loaded) path = Some vec'
                   ∧ allclose (1 # 1000000) vec vec')
      ∧ metadata loaded = metadata example_store.
Proof.
  assert (Hwf_e : dict_wf (embeddings example_store)).
  { unfold dict_wf. apply (bool_decide_unpack _). vm_compute. exact I. }
  assert (Hwf_m : dict_wf (metadata example_store)).
  { unfold dict_wf. apply (bool_decide_unpack _). vm_compute. exact I. }
  split_and!; [exact Hwf_e | exact Hwf_m | reflexivity |].
  apply (save_load_roundtrip example_store "lambda_index" example_empty_disk
           _ example_model Hwf_e Hwf_m).
  reflexivity.
Defined.

(** C6, as the code has it.  [load_index] raises [FileNotFoundError] when
    the vector container is missing (the indexer is untouched) and when the
    metadata document is missing (the embeddings have then already been
    replaced).  It never compares the two artifacts: when both exist they
    are loaded as they are, whatever their keys. *)
Theorem load_index_outcomes (self : LambdaProjectIndexer) (input_path : string)
    (d : Disk) :
  (disk_files d !! (input_path +:+ "_embeddings.npz") = None →
   load_index self input_path d
     = (self, Raise (FileNotFoundError (input_path +:+ "_embeddings.npz"))))
  ∧ (∀ arrays,
       disk_files d !! (input_path +:+ "_embeddings.npz") = Some (NpzFile arrays) →
       disk_files d !! (input_path +:+ "_metadata.json") = None →
       load_index self input_path d
         = (set_embeddings self (dict_of_items arrays),
            Raise (FileNotFoundError (input_path +:+ "_metadata.json"))))
  ∧ (∀ arrays doc,
       disk_files d !! (input_path +:+ "_embeddings.npz") = Some (NpzFile arrays) →
       disk_files d !! (input_path +:+ "_metadata.json") = Some (JsonFile doc) →
       load_index self input_path d
         = (set_metadata (set_embeddings self (dict_of_items arrays))
                         (dict_of_items doc), Ok tt)).
Proof.
  unfold load_index, np_load, json_load. split_and!.
  - now intros ->.
  - now intros arrays -> ->.
  - now intros arrays doc -> ->.
Qed.

Lemma load_index_outcomes_witness :
  disk_files example_empty_disk !! ("lambda_index" +:+ "_embeddings.npz") = None
  ∧ load_index example_store "lambda_index" example_empty_disk
      = (example_store, Raise (FileNotFoundError "lambda_index_embeddings.npz")).
Proof.
  split; [reflexivity |].
  exact (proj1 (load_index_outcomes example_store "lambda_index" example_empty_disk)
               eq_refl).
Defined.

(** C6 fails as stated: the container has the key [a.py], the metadata
    document has no key, and [load_index] succeeds. *)
Lemma load_index_outcomes_counterexample :
  np_load example_mismatched_disk "lambda_index_embeddings.npz"
    = Ok [("a.py", [1; 0]%Q)]
  ∧ json_load example_mismatched_disk "lambda_index_metadata.json" = Ok []
  ∧ snd (load_index (LambdaProjectIndexer_init example_model) "lambda_index"
                    example_mismatched_disk) = Ok tt
  ∧ ¬ ∃ e, snd (load_index (LambdaProjectIndexer_init example_model) "lambda_index"
                           example_mismatched_disk) = Raise e.
Proof.
  split_and!; [reflexivity | reflexivity | reflexivity |].
  intros [e He]. discriminate He.
Qed.

(** ** The watcher *)

(** C9, as the code has it.  [last_reindex] is the recorded debounce
    timestamp: the reading of [time.time()] taken when the event whose
    re-index last completed without error was handled, before that
    re-index started (0 before any).  An event that arrives while
    [current_time - last_reindex] is strictly below the debounce window
    starts no re-index and leaves no trace: handler, index and disk are
    unchanged (the handler has no queue).  The recorded timestamp changes
    only when a re-index was started and both [index_project] and
    [save_index] completed without error, and then it becomes the time of
    the event.  The window of a new handler is 2 seconds. *)
Theorem debounce_drops_and_timestamp (self : ProjectFileHandler)
    (event : FileSystemEvent) (current_time : Q) (proj : Project) (d : Disk) :
  ((current_time - last_reindex self < reindex_delay self)%Q →
   trigger_reindex self event current_time proj d = (self, d))
  ∧ (last_reindex (fst (trigger_reindex self event current_time proj d))
       ≠ last_reindex self →
     ¬ (current_time - last_reindex self < reindex_delay self)%Q
     ∧ should_index (src_path event) = true
     ∧ snd (save_index (index_project (indexer self) proj (project_path self))
                       "lambda_index" d) = Ok tt
     ∧ last_reindex (fst (trigger_reindex self event current_time proj d))
         = current_time)
  ∧ (∀ idx path, reindex_delay (ProjectFileHandler_init idx path) = 2%Q).
Proof.
  split_and!.
  - intros Hlt. unfold trigger_reindex.
    now rewrite (proj2 (float_lt_true _ _) Hlt).
  - unfold trigger_reindex.
    destruct (float_lt _ _) eqn:Hwin; [now intros [] |].
    destruct (should_index _); [| now intros []].
    destruct (save_index _ _ d) as [d' [[]|e]]; simpl; [| now intros []].
    intros _. split_and!; try reflexivity.
    intros Hlt. apply float_lt_true in Hlt. congruence.
  - reflexivity.
Qed.

Lemma debounce_drops_and_timestamp_witness :
  let event := {| src_path := "./src/d.txt"; is_directory := false |} in
  (101 - last_reindex example_handler_at_100 < reindex_delay example_handler_at_100)%Q
  ∧ trigger_reindex example_handler_at_100 event 101 example_project example_empty_disk
      = (example_handler_at_100, example_empty_disk)
  ∧ last_reindex (fst (trigger_reindex example_handler_at_100 event 103
                                       example_project example_empty_disk)) = 103%Q
  ∧ last_reindex (fst (trigger_reindex example_handler_at_100 event 103
                                       example_project example_locked_disk)) = 100%Q.
Proof.
  intros event.
  assert (Hlt : (101 - last_reindex example_handler_at_100
                   < reindex_delay example_handler_at_100)%Q) by reflexivity.
  split_and!.
  - exact Hlt.
  - exact (proj1 (debounce_drops_and_timestamp example_handler_at_100 event 101
                    example_project example_empty_disk) Hlt).
  - apply (proj1 (proj2 (debounce_drops_and_timestamp example_handler_at_100 event 103
                           example_project example_empty_disk))).
    vm_compute. discriminate.
  - vm_compute. reflexivity.
Defined.

(** C9 fails as stated: the window is not measured from the completion of
    the last re-index.  The re-index that the event read at time 100
    starts may complete at any later time, say at 105; the handler
    records 100.  An event at 106, one second after that completion, is
    not dropped: it starts a re-index and the timestamp moves to 106. *)
Lemma debounce_drops_and_timestamp_counterexample :
  let event := {| src_path := "./src/d.txt"; is_directory := false |} in
  let first := trigger_reindex example_handler event 100 example_project
                               example_empty_disk in
  last_reindex (fst first) = 100%Q
  ∧ (last_reindex (fst first) <= 105)%Q
  ∧ (106 - 105 < reindex_delay (fst first))%Q
  ∧ trigger_reindex (fst first) event 106 example_project (snd first)
      ≠ (fst first, snd first)
  ∧ last_reindex (fst (trigger_reindex (fst first) event 106 example_project
                                       (snd first))) = 106%Q
  ∧ ¬ (∀ completed current_time : Q,
         (last_reindex (fst first) <= completed)%Q →
         (current_time - completed < reindex_delay (fst first))%Q →
         trigger_reindex (fst first) event current_time example_project (snd first)
           = (fst first, snd first)).
Proof.
  intros event first.
  assert (Hnow : last_reindex (fst (trigger_reindex (fst first) event 106 example_project
                                                    (snd first))) = 106%Q)
    by (vm_compute; reflexivity).
  assert (Hthen : last_reindex (fst first) = 100%Q) by (vm_compute; reflexivity).
  assert (Hne : trigger_reindex (fst first) event 106 example_project (snd first)
                  ≠ (fst first, snd first)).
  { intros Heq. rewrite Heq in Hnow. simpl fst in Hnow. rewrite Hthen in Hnow.
    discriminate Hnow. }
  split_and!.
  - exact Hthen.
  - rewrite Hthen. discriminate.
  - reflexivity.
  - exact Hne.
  - exact Hnow.
  - intros Hclaim. apply Hne. apply (Hclaim 105%Q 106%Q).
    + rewrite Hthen. discriminate.
    + reflexivity.
Qed.


(** ** The dictionaries of an indexer stay dictionaries

    [dict_wf] holds of a new indexer and is kept by every method, so it
    holds of every state that the program reaches. *)

Lemma init_wf (m : text → result (list ndarray)) :
  dict_wf (embeddings (LambdaProjectIndexer_init m))
  ∧ dict_wf (metadata (LambdaProjectIndexer_init m)).
Proof. split; apply NoDup_nil_2. Qed.

Lemma index_file_wf (proj : Project) (v : visit) (self : LambdaProjectIndexer)
    (name : string) :
  dict_wf (embeddings self) ∧ dict_wf (metadata self) →
  dict_wf (embeddings (index_file proj v self name))
  ∧ dict_wf (metadata (index_file proj v self name)).
Proof.
  intros [He Hm]. unfold index_file.
  destruct (str_in _ extensions); [| now split].
  destruct (embed_file self proj _); [| now split].
  destruct (getsize proj _); simpl; split;
    try apply dict_set_wf; assumption.
Qed.

Lemma index_project_wf (self : LambdaProjectIndexer) (proj : Project)
    (project_path : string) :
  dict_wf (embeddings self) ∧ dict_wf (metadata self) →
  dict_wf (embeddings (index_project self proj project_path))
  ∧ dict_wf (metadata (index_project self proj project_path)).
Proof.
  unfold index_project, index_visits.
  generalize (project_walk proj project_path) as visits.
  intros visits. revert self.
  induction visits as [|v visits IH]; intros self Hwf; simpl; [assumption |].
  apply IH. clear IH.
  generalize (files v) as names. intros names. revert self Hwf.
  induction names as [|name names IH]; intros self Hwf; simpl; [assumption |].
  apply IH. now apply index_file_wf.
Qed.

Lemma load_index_wf (self : LambdaProjectIndexer) (input_path : string) (d : Disk) :
  dict_wf (embeddings self) ∧ dict_wf (metadata self) →
  dict_wf (embeddings (fst (load_index self input_path d)))
  ∧ dict_wf (metadata (fst (load_index self input_path d))).
Proof.
  intros [He Hm]. unfold load_index.
  destruct (np_load d _); simpl; [| now split].
  destruct (json_load d _); simpl; split;
    try apply dict_of_items_wf; assumption.
Qed.


(** * Further properties of the code *)

(** ** The chunker: sizes and edge cases *)

Lemma chunk_loop_sizes (m : Z) (words : list text) :
  1 <= m →
  ∀ chunks cur,
    Forall is_word cur →
    Forall is_word words →
    Z.of_nat (length cur) < m →
    ∃ new cur',
      chunk_loop m words chunks cur = (chunks ++ new, cur')
      ∧ Forall (fun c => Z.of_nat (length (str_split c)) = m) new
      ∧ Forall is_word cur'
      ∧ Z.of_nat (length cur') < m
      ∧ Z.of_nat (length new) * m + Z.of_nat (length cur')
          = Z.of_nat (length cur) + Z.of_nat (length words).
Proof.
  intros Hm.
  induction words as [|word words IH]; intros chunks cur Hcur Hwords Hlt; simpl.
  - exists [], cur. rewrite app_nil_r. split_and!; try done. simpl. lia.
  - inversion Hwords as [|? ? Hword Hrest]; subst.
    assert (Hcur' : Forall is_word (cur ++ [word])).
    { apply Forall_app. split; [assumption | constructor; [assumption | constructor]]. }
    assert (Hlen : length (cur ++ [word]) = S (length cur)).
    { rewrite length_app. simpl. lia. }
    rewrite (str_split_join_words _ Hcur'), Hlen.
    destruct (m <=? Z.of_nat (S (length cur))) eqn:Htest.
    + apply Z.leb_le in Htest.
      destruct (IH (chunks ++ [str_join SPACE (cur ++ [word])]) []
                   (Forall_nil_2 _) Hrest) as (new & cur' & Heq & Hnew & Hw & Hlt' & Hcount).
      { simpl. lia. }
      exists (str_join SPACE (cur ++ [word]) :: new), cur'.
      split_and!; try assumption.
      * rewrite Heq, <- app_assoc. reflexivity.
      * constructor; [| assumption].
        rewrite (str_split_join_words _ Hcur'), Hlen. lia.
      * simpl length in *. nia.
    + apply Z.leb_gt in Htest.
      destruct (IH chunks (cur ++ [word]) Hcur' Hrest) as
        (new & cur' & Heq & Hnew & Hw & Hlt' & Hcount).
      { rewrite Hlen. lia. }
      exists new, cur'. split_and!; try assumption.
      rewrite Hcount, Hlen. simpl length. lia.
Qed.

(** X1.  For [max_length >= 1] and a text with at least one word, every
    chunk but the last has exactly [max_length] words, the last has between
    1 and [max_length], and together they have the word count of the
    text. *)
Theorem chunk_sizes (content : text) (max_length : Z) :
  1 <= max_length →
  str_split content ≠ [] →
  ∃ full last,
    _chunk_text content max_length = full ++ [last]
    ∧ Forall (fun c => Z.of_nat (length (str_split c)) = max_length) full
    ∧ 1 <= Z.of_nat (length (str_split last)) <= max_length
    ∧ Z.of_nat (length full) * max_length + Z.of_nat (length (str_split last))
        = Z.of_nat (length (str_split content)).
Proof.
  intros Hm Hwords. unfold _chunk_text.
  destruct (chunk_loop_sizes max_length (str_split content) Hm [] []
              (Forall_nil_2 _) (str_split_words content))
    as (new & cur & Heq & Hnew & Hcur & Hlt & Hcount); [simpl; lia |].
  rewrite Heq. simpl app. simpl length in Hcount.
  destruct cur as [|w cur].
  - destruct (exists_last (l := new)) as (full & last & ->).
    { intros ->. simpl in Hcount. destruct (str_split content); [done | simpl in Hcount; lia]. }
    apply Forall_app in Hnew as [Hfull Hlast].
    inversion Hlast as [|? ? Hl _]; subst.
    exists full, last. split_and!; try assumption; try lia.
    + now destruct (full ++ [last]) eqn:E; [destruct full; discriminate |].
    + rewrite length_app in Hcount. simpl in Hcount. nia.
  - exists new, (str_join SPACE (w :: cur)).
    rewrite (str_split_join_words _ Hcur).
    split_and!; try assumption; try (simpl length in *; lia).
    now destruct (new ++ [str_join SPACE (w :: cur)]) eqn:E;
      [destruct new; discriminate |].
Qed.

Lemma chunk_sizes_witness :
  1 <= 2
  ∧ str_split (of_string "a b c d e") ≠ []
  ∧ ∃ full last,
      _chunk_text (of_string "a b c d e") 2 = full ++ [last]
      ∧ Forall (fun c => Z.of_nat (length (str_split c)) = 2) full
      ∧ 1 <= Z.of_nat (length (str_split last)) <= 2
      ∧ Z.of_nat (length full) * 2 + Z.of_nat (length (str_split last))
          = Z.of_nat (length (str_split (of_string "a b c d e"))).
Proof.
  split; [lia |].
  assert (Hne : str_split (of_string "a b c d e") ≠ []) by (vm_compute; discriminate).
  split; [exact Hne |].
  apply (chunk_sizes (of_string "a b c d e") 2); [lia | exact Hne].
Defined.

(** X2.  A text without any word (empty, or whitespace only) makes one
    chunk, the text itself; [embed_file] then calls the model once, on the
    raw text. *)
Theorem blank_text_single_chunk (self : LambdaProjectIndexer) (proj : Project)
    (filepath : string) (content : text) (max_length : Z) :
  str_split content = [] →
  _chunk_text content max_length = [content]
  ∧ (read_text proj filepath = Ok content →
     embed_file self proj filepath
       = (hidden ← model self content;
          mret (np_mean_axis0 [np_mean_axis0 hidden]))).
Proof.
  intros Hblank.
  assert (Hchunk : ∀ m, _chunk_text content m = [content]).
  { intros m. unfold _chunk_text. now rewrite Hblank. }
  split; [apply Hchunk |].
  intros Hread. unfold embed_file. rewrite Hread. simpl.
  rewrite Hchunk. simpl.
  now destruct (model self content).
Qed.

Lemma blank_text_single_chunk_witness :
  str_split (of_string "  ") = []
  ∧ _chunk_text (of_string "  ") 512 = [of_string "  "]
  ∧ _chunk_text [] 512 = [[]].
Proof.
  split; [reflexivity |]. split.
  - exact (proj1 (blank_text_single_chunk (LambdaProjectIndexer_init example_model)
                    example_project "" (of_string "  ") 512 eq_refl)).
  - reflexivity.
Defined.

Lemma chunk_loop_one_word (m : Z) (words : list text) :
  m <= 1 →
  Forall is_word words →
  ∀ chunks, chunk_loop m words chunks [] = (chunks ++ words, []).
Proof.
  intros Hm. induction 1 as [|word words Hword _ IH]; intros chunks; simpl.
  - now rewrite app_nil_r.
  - rewrite (str_split_word _ Hword).
    replace (m <=? Z.of_nat (length [word])) with true
      by (symmetry; apply Z.leb_le; simpl; lia).
    rewrite IH, <- app_assoc. reflexivity.
Qed.

(** X3.  With [max_length <= 1] (zero and negative values included) every
    word is a chunk of its own. *)
Theorem chunk_per_word (content : text) (max_length : Z) :
  max_length <= 1 →
  str_split content ≠ [] →
  _chunk_text content max_length = str_split content.
Proof.
  intros Hm Hne. unfold _chunk_text.
  rewrite (chunk_loop_one_word max_length _ Hm (str_split_words content) []).
  simpl. now destruct (str_split content).
Qed.

Lemma chunk_per_word_witness :
  -3 <= 1
  ∧ str_split (of_string "a b c") ≠ []
  ∧ _chunk_text (of_string "a b c") (-3) = str_split (of_string "a b c").
Proof.
  split; [lia |].
  assert (Hne : str_split (of_string "a b c") ≠ []) by (vm_compute; discriminate).
  split; [exact Hne |].
  apply (chunk_per_word (of_string "a b c") (-3)); [lia | exact Hne].
Defined.

(** ** [dict.update] *)

Section DictUpdate.
Context {V : Type}.
Implicit Types (d : dict V) (k : string) (ws : list (string * V)).

Lemma dict_update_cons d k (v : V) ws :
  dict_update d ((k, v) :: ws) = dict_update (dict_set k v d) ws.
Proof. reflexivity. Qed.

Lemma dict_update_app d ws ws' :
  dict_update d (ws ++ ws') = dict_update (dict_update d ws) ws'.
Proof. unfold dict_update. apply fold_left_app. Qed.

Lemma dict_update_wf d ws : dict_wf d → dict_wf (dict_update d ws).
Proof.
  revert d. induction ws as [|[k v] ws IH]; intros d Hwf; [assumption |].
  rewrite dict_update_cons. apply IH. now apply dict_set_wf.
Qed.

Lemma dict_update_get_notin d ws k :
  k ∉ map fst ws → dict_get (dict_update d ws) k = dict_get d k.
Proof.
  revert d. induction ws as [|[k' v] ws IH]; intros d Hnotin; [reflexivity |].
  simpl in Hnotin. apply not_elem_of_cons in Hnotin as [Hne Hnotin].
  rewrite dict_update_cons, IH by assumption.
  apply dict_get_set_ne. congruence.
Qed.

(** The value of an assigned key does not depend on the dictionary that
    is updated. *)
Lemma dict_update_get_in d d' ws k :
  k ∈ map fst ws → dict_get (dict_update d ws) k = dict_get (dict_update d' ws) k.
Proof.
  revert d d'. induction ws as [|[k' v] ws IH]; intros d d' Hin; simpl in Hin.
  - now apply elem_of_nil in Hin.
  - rewrite !dict_update_cons.
    destruct (decide (k ∈ map fst ws)) as [Hlater | Hnot].
    + now apply IH.
    + apply elem_of_cons in Hin as [-> | Hin]; [| contradiction].
      rewrite !dict_update_get_notin by assumption.
      now rewrite !dict_get_set_eq.
Qed.

Lemma dict_update_keys_mono d ws k :
  k ∈ dict_keys d → k ∈ dict_keys (dict_update d ws).
Proof.
  revert d. induction ws as [|[k' v] ws IH]; intros d Hin; [assumption |].
  rewrite dict_update_cons. apply IH. rewrite dict_keys_set.
  destruct (decide (k' ∈ dict_keys d)); [assumption |].
  apply elem_of_app. now left.
Qed.

Lemma dict_update_keys_in d ws k :
  k ∈ map fst ws → k ∈ dict_keys (dict_update d ws).
Proof.
  revert d. induction ws as [|[k' v] ws IH]; intros d Hin; simpl in Hin.
  - now apply elem_of_nil in Hin.
  - rewrite dict_update_cons.
    apply elem_of_cons in Hin as [-> | Hin]; [| now apply IH].
    apply dict_update_keys_mono, dict_get_is_Some.
    rewrite dict_get_set_eq. eauto.
Qed.

Lemma dict_update_keys_origin d ws k :
  k ∈ dict_keys (dict_update d ws) → k ∈ dict_keys d ∨ k ∈ map fst ws.
Proof.
  revert d. induction ws as [|[k' v] ws IH]; intros d Hin; [now left |].
  rewrite dict_update_cons in Hin. apply IH in Hin as [Hin | Hin].
  - rewrite dict_keys_set in Hin.
    destruct (decide (k' ∈ dict_keys d)); [now left |].
    apply elem_of_app in Hin as [Hin | Hin]; [now left |].
    apply list_elem_of_singleton in Hin as ->. right. now left.
  - right. now right.
Qed.

Lemma dict_update_keys_present d ws :
  (∀ k, k ∈ map fst ws → k ∈ dict_keys d) →
  dict_keys (dict_update d ws) = dict_keys d.
Proof.
  revert d. induction ws as [|[k v] ws IH]; intros d Hall; [reflexivity |].
  assert (Hk : k ∈ dict_keys d) by (apply Hall; now left).
  rewrite dict_update_cons, IH.
  - now apply dict_keys_set_present.
  - intros k' Hk'. rewrite dict_keys_set_present by assumption.
    apply Hall. now right.
Qed.

(** Two dictionaries with the same keys in the same order and the same
    lookups are equal. *)
Lemma dict_ext d d' :
  dict_wf d → dict_wf d' →
  dict_keys d = dict_keys d' →
  (∀ k, dict_get d k = dict_get d' k) →
  d = d'.
Proof.
  unfold dict_wf, dict_keys.
  revert d'. induction d as [|[k v] d IH]; intros [|[k' v'] d'] Hwf Hwf' Hkeys Hget;
    simpl in *; try discriminate; [reflexivity |].
  injection Hkeys as -> Hkeys.
  apply NoDup_cons in Hwf as [Hk Hwf]. apply NoDup_cons in Hwf' as [Hk' Hwf'].
  pose proof (Hget k') as Hhead. rewrite String.eqb_refl in Hhead.
  injection Hhead as ->. f_equal.
  apply IH; try assumption.
  intros k0. specialize (Hget k0).
  destruct (String.eqb_spec k0 k') as [Heq | Hne]; [subst k0 | assumption].
  transitivity (@None V); [| symmetry]; now apply dict_get_None.
Qed.

(** Doing the same assignments a second time changes nothing. *)
Lemma dict_update_idem d ws :
  dict_wf d → dict_update (dict_update d ws) ws = dict_update d ws.
Proof.
  intros Hwf. apply dict_ext.
  - now do 2 apply dict_update_wf.
  - now apply dict_update_wf.
  - apply dict_update_keys_present. intros k Hk. now apply dict_update_keys_in.
  - intros k. destruct (decide (k ∈ map fst ws)) as [Hin | Hnot].
    + now apply dict_update_get_in.
    + now rewrite dict_update_get_notin.
Qed.

End DictUpdate.

Lemma dict_update_keys_congr {V W} (d : dict V) (d' : dict W)
    (ws : list (string * V)) (ws' : list (string * W)) :
  dict_keys d = dict_keys d' →
  map fst ws = map fst ws' →
  dict_keys (dict_update d ws) = dict_keys (dict_update d' ws').
Proof.
  revert d d' ws'. induction ws as [|[k v] ws IH]; intros d d' [|[k' v'] ws'] Hd Hws;
    simpl in Hws; try discriminate; [assumption |].
  injection Hws as -> Hws. rewrite !dict_update_cons.
  apply IH; [| assumption].
  rewrite !dict_keys_set, Hd. reflexivity.
Qed.

(** ** [index_project] as two updates *)

#[local] Arguments str_in : simpl never.

Lemma indexer_eq (a b : LambdaProjectIndexer) :
  model a = model b → embeddings a = embeddings b → metadata a = metadata b → a = b.
Proof. destruct a, b. simpl. now intros -> -> ->. Qed.

Lemma index_files_update (proj : Project) (v : visit) (self0 : LambdaProjectIndexer)
    (names : list string) :
  ∀ self,
    model self = model self0 →
    embeddings (fold_left (index_file proj v) names self)
      = dict_update (embeddings self)
          (emb_writes_in self0 proj {| root := root v; below := below v; files := names |})
    ∧ metadata (fold_left (index_file proj v) names self)
      = dict_update (metadata self)
          (meta_writes_in self0 proj {| root := root v; below := below v; files := names |}).
Proof.
  unfold emb_writes_in, meta_writes_in. simpl.
  induction names as [|name names IH]; intros self Hmodel; simpl; [now split |].
  destruct (IH (index_file proj v self name)) as [-> ->].
  { now rewrite index_file_model. }
  rewrite !dict_update_app.
  unfold index_file.
  rewrite (embed_file_model self self0) by assumption.
  destruct (str_in (path_suffix name) extensions); [| now split].
  destruct (embed_file self0 proj (os_path_join (root v) name)); [| now split].
  destruct (getsize proj (os_path_join (root v) name)); now split.
Qed.

Lemma index_visits_update (proj : Project) (self0 : LambdaProjectIndexer)
    (visits : list visit) :
  ∀ self,
    model self = model self0 →
    embeddings (index_visits proj visits self)
      = dict_update (embeddings self) (emb_writes self0 proj visits)
    ∧ metadata (index_visits proj visits self)
      = dict_update (metadata self) (meta_writes self0 proj visits).
Proof.
  unfold index_visits, emb_writes, meta_writes.
  induction visits as [|v visits IH]; intros self Hmodel; simpl; [now split |].
  destruct (IH (fold_left (index_file proj v) (files v) self)) as [-> ->].
  { now rewrite index_files_model. }
  destruct (index_files_update proj v self0 (files v) self Hmodel) as [-> ->].
  rewrite !dict_update_app. now destruct v.
Qed.

Lemma emb_writes_elem (self : LambdaProjectIndexer) (proj : Project)
    (visits : list visit) (path : string) (emb : ndarray) :
  (path, emb) ∈ emb_writes self proj visits ↔
  ∃ v name,
    v ∈ visits ∧ name ∈ files v
    ∧ str_in (path_suffix name) extensions = true
    ∧ embed_file self proj (os_path_join (root v) name) = Ok emb
    ∧ path = relpath_below (below v) name.
Proof.
  unfold emb_writes, emb_writes_in.
  rewrite list_elem_of_In, in_flat_map. split.
  - intros (v & Hv & Hin). apply in_flat_map in Hin as (name & Hname & Hin).
    exists v, name. rewrite !list_elem_of_In.
    destruct (str_in (path_suffix name) extensions); [| now destruct Hin].
    destruct (embed_file self proj _) as [e|]; [| now destruct Hin].
    destruct Hin as [Heq | []]. injection Heq as <- <-. now split_and!.
  - intros (v & name & Hv & Hname & Hext & Hemb & ->).
    exists v. rewrite <- list_elem_of_In. split; [assumption |].
    apply in_flat_map. exists name. rewrite <- list_elem_of_In.
    split; [assumption |]. rewrite Hext, Hemb. now left.
Qed.

Lemma meta_writes_elem (self : LambdaProjectIndexer) (proj : Project)
    (visits : list visit) (path : string) (m : FileMeta) :
  (path, m) ∈ meta_writes self proj visits ↔
  ∃ v name emb sz,
    v ∈ visits ∧ name ∈ files v
    ∧ str_in (path_suffix name) extensions = true
    ∧ embed_file self proj (os_path_join (root v) name) = Ok emb
    ∧ getsize proj (os_path_join (root v) name) = Ok sz
    ∧ path = relpath_below (below v) name
    ∧ m = {| absolute_path := os_path_join (root v) name;
             extension := path_suffix name; size := sz |}.
Proof.
  unfold meta_writes, meta_writes_in.
  rewrite list_elem_of_In, in_flat_map. split.
  - intros (v & Hv & Hin). apply in_flat_map in Hin as (name & Hname & Hin).
    apply list_elem_of_In in Hv, Hname.
    exists v, name.
    destruct (str_in (path_suffix name) extensions); [| now destruct Hin].
    destruct (embed_file self proj _) as [e|]; [| now destruct Hin].
    destruct (getsize proj _) as [sz|]; [| now destruct Hin].
    destruct Hin as [Heq | []]. injection Heq as <- <-.
    exists e, sz. now split_and!.
  - intros (v & name & emb & sz & Hv & Hname & Hext & Hemb & Hsz & -> & ->).
    exists v. rewrite <- list_elem_of_In. split; [assumption |].
    apply in_flat_map. exists name. rewrite <- list_elem_of_In.
    split; [assumption |]. rewrite Hext, Hemb, Hsz. now left.
Qed.

(** X4.  [index_project] invents no key: a path of the embeddings mapping
    after the call was there before, or is the relative path of a listed
    file with an indexed extension whose embedding succeeded; a path of the
    metadata mapping was there before, or belongs to such a file whose size
    could also be read. *)
Theorem index_project_keys_origin (self : LambdaProjectIndexer) (proj : Project)
    (project_path : string) (path : string) :
  (path ∈ dict_keys (embeddings (index_project self proj project_path)) →
   path ∈ dict_keys (embeddings self)
   ∨ ∃ v name emb,
       v ∈ project_walk proj project_path ∧ name ∈ files v
       ∧ str_in (path_suffix name) extensions = true
       ∧ embed_file self proj (os_path_join (root v) name) = Ok emb
       ∧ path = relpath_below (below v) name)
  ∧ (path ∈ dict_keys (metadata (index_project self proj project_path)) →
     path ∈ dict_keys (metadata self)
     ∨ ∃ v name emb sz,
         v ∈ project_walk proj project_path ∧ name ∈ files v
         ∧ str_in (path_suffix name) extensions = true
         ∧ embed_file self proj (os_path_join (root v) name) = Ok emb
         ∧ getsize proj (os_path_join (root v) name) = Ok sz
         ∧ path = relpath_below (below v) name).
Proof.
  unfold index_project.
  destruct (index_visits_update proj self (project_walk proj project_path) self eq_refl)
    as [-> ->].
  split; intros Hin; apply dict_update_keys_origin in Hin as [Hin | Hin];
    try (now left); right.
  - apply list_elem_of_fmap in Hin as ([k emb] & -> & Hin).
    apply emb_writes_elem in Hin as (v & name & ? & ? & ? & ? & ?).
    now exists v, name, emb.
  - apply list_elem_of_fmap in Hin as ([k m] & -> & Hin).
    apply meta_writes_elem in Hin as (v & name & emb & sz & ? & ? & ? & ? & ? & ? & ?).
    now exists v, name, emb, sz.
Qed.

Lemma index_project_keys_origin_witness :
  let self := LambdaProjectIndexer_init example_model in
  ("src/d.txt" ∈ dict_keys (embeddings (index_project self example_project "./")))
  ∧ ("src/d.txt" ∈ dict_keys (embeddings self)
     ∨ ∃ v name emb,
         v ∈ project_walk example_project "./" ∧ name ∈ files v
         ∧ str_in (path_suffix name) extensions = true
         ∧ embed_file self example_project (os_path_join (root v) name) = Ok emb
         ∧ "src/d.txt" = relpath_below (below v) name).
Proof.
  intros self.
  assert (Hin : "src/d.txt"
                  ∈ dict_keys (embeddings (index_project self example_project "./"))).
  { vm_compute. right. now left. }
  split; [exact Hin |].
  exact (proj1 (index_project_keys_origin self example_project "./" "src/d.txt") Hin).
Defined.

Lemma writes_same_keys (self : LambdaProjectIndexer) (proj : Project)
    (visits : list visit) :
  (∀ v name emb,
     v ∈ visits → name ∈ files v →
     str_in (path_suffix name) extensions = true →
     embed_file self proj (os_path_join (root v) name) = Ok emb →
     ∃ sz, getsize proj (os_path_join (root v) name) = Ok sz) →
  map fst (emb_writes self proj visits) = map fst (meta_writes self proj visits).
Proof.
  unfold emb_writes, meta_writes, emb_writes_in, meta_writes_in.
  induction visits as [|v visits IH]; intros Hsize; simpl; [reflexivity |].
  rewrite !map_app, IH.
  2:{ intros v' name emb Hv'. apply Hsize. now right. }
  f_equal.
  assert (Hv : ∀ name emb, name ∈ files v →
            str_in (path_suffix name) extensions = true →
            embed_file self proj (os_path_join (root v) name) = Ok emb →
            ∃ sz, getsize proj (os_path_join (root v) name) = Ok sz).
  { intros name emb. apply Hsize. now left. }
  clear IH Hsize. induction (files v) as [|name names IHn]; simpl; [reflexivity |].
  rewrite !map_app, IHn.
  2:{ intros name' emb Hin. apply (Hv name' emb). now right. }
  f_equal.
  destruct (str_in (path_suffix name) extensions) eqn:Hext; [| reflexivity].
  destruct (embed_file self proj (os_path_join (root v) name)) as [emb|] eqn:Hemb;
    [| reflexivity].
  destruct (Hv name emb) as [sz ->]; [now left | assumption | assumption |].
  reflexivity.
Qed.

(** X5.  When the size of every file that embeds can be read,
    [index_project] keeps the two mappings in step: if they had the same
    keys in the same order before, they have after.  Starting from a new
    indexer, every stored path therefore has its metadata, which is what
    [search] needs. *)
Theorem index_project_keeps_keys_equal (self : LambdaProjectIndexer)
    (proj : Project) (project_path : string) :
  dict_keys (embeddings self) = dict_keys (metadata self) →
  (∀ v name emb,
     v ∈ project_walk proj project_path → name ∈ files v →
     str_in (path_suffix name) extensions = true →
     embed_file self proj (os_path_join (root v) name) = Ok emb →
     ∃ sz, getsize proj (os_path_join (root v) name) = Ok sz) →
  dict_keys (embeddings (index_project self proj project_path))
    = dict_keys (metadata (index_project self proj project_path))
  ∧ ∀ path, path ∈ dict_keys (embeddings (index_project self proj project_path)) →
            is_Some (dict_get (metadata (index_project self proj project_path)) path).
Proof.
  intros Hkeys Hsize.
  assert (Heq : dict_keys (embeddings (index_project self proj project_path))
                = dict_keys (metadata (index_project self proj project_path))).
  { unfold index_project.
    destruct (index_visits_update proj self (project_walk proj project_path) self eq_refl)
      as [-> ->].
    apply dict_update_keys_congr; [assumption |].
    now apply writes_same_keys. }
  split; [exact Heq |].
  intros path Hin. apply dict_get_is_Some. now rewrite <- Heq.
Qed.

Lemma index_project_keeps_keys_equal_witness :
  let self := LambdaProjectIndexer_init example_model in
  dict_keys (embeddings self) = dict_keys (metadata self)
  ∧ dict_keys (embeddings (index_project self example_project "./"))
      = dict_keys (metadata (index_project self example_project "./"))
  ∧ ∀ path, path ∈ dict_keys (embeddings (index_project self example_project "./")) →
            is_Some (dict_get (metadata (index_project self example_project "./")) path).
Proof.
  intros self. split; [reflexivity |].
  apply (index_project_keeps_keys_equal self example_project "./"); [reflexivity |].
  intros v name emb _ _ _ _. now exists 10.
Defined.

(** X6.  The embedding is assigned before the size is read: when
    [os.path.getsize] raises for a file whose embedding succeeded (and for
    every file of the walk with the same relative path), the [except]
    branch leaves an embedding stored for the path and the metadata entry
    of the path as it was before the call.  On a new indexer that is no
    entry at all, a state in which [search] raises [KeyError] once the
    path is ranked. *)
Theorem unreadable_size_leaves_no_metadata (self : LambdaProjectIndexer)
    (proj : Project) (project_path : string) (v : visit) (name : string)
    (emb : ndarray) :
  v ∈ project_walk proj project_path →
  name ∈ files v →
  str_in (path_suffix name) extensions = true →
  embed_file self proj (os_path_join (root v) name) = Ok emb →
  (∀ v' name',
     v' ∈ project_walk proj project_path → name' ∈ files v' →
     relpath_below (below v') name' = relpath_below (below v) name →
     ∃ e, getsize proj (os_path_join (root v') name') = Raise e) →
  is_Some (dict_get (embeddings (index_project self proj project_path))
                    (relpath_below (below v) name))
  ∧ dict_get (metadata (index_project self proj project_path))
             (relpath_below (below v) name)
    = dict_get (metadata self) (relpath_below (below v) name).
Proof.
  intros Hv Hname Hext Hemb Hsize. split.
  - unfold index_project. now apply index_visits_embedded with emb.
  - unfold index_project.
    destruct (index_visits_update proj self (project_walk proj project_path) self eq_refl)
      as [_ ->].
    apply dict_update_get_notin.
    intros Hin. apply list_elem_of_fmap in Hin as ([k m] & Hk & Hin). simpl in Hk.
    apply meta_writes_elem in Hin
      as (v' & name' & emb' & sz & Hv' & Hname' & _ & _ & Hsz & -> & _).
    destruct (Hsize v' name' Hv' Hname') as [e He]; [now symmetry |].
    congruence.
Qed.

Lemma unreadable_size_leaves_no_metadata_witness :
  let self := LambdaProjectIndexer_init example_model in
  let v := {| root := "./"; below := []; files := ["a.py"] |} in
  (v ∈ project_walk example_project_unstat "./")
  ∧ dict_get (metadata self) (relpath_below (below v) "a.py") = None
  ∧ is_Some (dict_get (embeddings (index_project self example_project_unstat "./"))
                      (relpath_below (below v) "a.py"))
  ∧ dict_get (metadata (index_project self example_project_unstat "./"))
             (relpath_below (below v) "a.py")
    = dict_get (metadata self) (relpath_below (below v) "a.py").
Proof.
  intros self v.
  assert (Hv : v ∈ project_walk example_project_unstat "./") by (vm_compute; now left).
  split; [exact Hv |]. split; [reflexivity |].
  apply (unreadable_size_leaves_no_metadata self example_project_unstat "./" v "a.py"
           (np_mean_axis0 [np_mean_axis0
              (map (fun c => [inject_Z (Z.of_N c); 1%Q]) (of_string "./a.py"))]));
    [exact Hv | now left | reflexivity | reflexivity |].
  intros v' name' _ _ _. eexists. reflexivity.
Defined.

(** X7.  Indexing an unchanged project a second time changes nothing:
    [index_project] is idempotent on an indexer whose mappings are
    dictionaries. *)
Theorem index_project_idempotent (self : LambdaProjectIndexer) (proj : Project)
    (project_path : string) :
  dict_wf (embeddings self) →
  dict_wf (metadata self) →
  index_project (index_project self proj project_path) proj project_path
    = index_project self proj project_path.
Proof.
  intros Hwf_e Hwf_m. unfold index_project.
  set (visits := project_walk proj project_path).
  assert (Hmodel : model (index_visits proj visits self) = model self)
    by apply index_visits_model.
  destruct (index_visits_update proj self visits self eq_refl) as [He Hm].
  destruct (index_visits_update proj self visits (index_visits proj visits self) Hmodel)
    as [He' Hm'].
  apply indexer_eq.
  - apply index_visits_model.
  - rewrite He', He. now apply dict_update_idem.
  - rewrite Hm', Hm. now apply dict_update_idem.
Qed.

Lemma index_project_idempotent_witness :
  let self := LambdaProjectIndexer_init example_model in
  dict_wf (embeddings self)
  ∧ dict_wf (metadata self)
  ∧ index_project (index_project self example_project "./") example_project "./"
      = index_project self example_project "./".
Proof.
  intros self.
  destruct (init_wf example_model) as [He Hm].
  split_and!; [exact He | exact Hm |].
  exact (index_project_idempotent self example_project "./" He Hm).
Defined.

(** ** The walk *)

Lemma entry_nested_ind (P : entry → Prop) :
  (∀ name, P (File name)) →
  (∀ name children, Forall P children → P (Directory name children)) →
  ∀ e, P e.
Proof.
  intros Hfile Hdir. fix IH 1. intros [name | name children].
  - apply Hfile.
  - apply Hdir. induction children as [|c children IHc]; constructor.
    + apply IH.
    + exact IHc.
Qed.

Lemma os_walk_below (keep : string → bool) (dir : entry) :
  ∀ top rel v,
    v ∈ os_walk keep top rel dir →
    ∃ extra,
      below v = rel ++ extra
      ∧ Forall (fun d => keep d = true) extra
      ∧ root v = fold_left os_path_join extra top.
Proof.
  induction dir as [name | name children IH] using entry_nested_ind;
    intros top rel v Hin; simpl in Hin.
  - now apply elem_of_nil in Hin.
  - apply elem_of_cons in Hin as [-> | Hin].
    + exists []. simpl. rewrite app_nil_r. now split_and!.
    + apply list_elem_of_In, in_flat_map in Hin as (c & Hc & Hin).
      apply list_elem_of_In in Hc.
      rewrite Forall_forall in IH. specialize (IH c Hc).
      destruct c as [n | n ch]; [now destruct Hin |].
      destruct (keep n) eqn:Hkeep; [| now destruct Hin].
      apply list_elem_of_In in Hin.
      destruct (IH _ _ _ Hin) as (extra & Hbelow & Hall & Hroot).
      exists (n :: extra). rewrite Hbelow, <- app_assoc. simpl.
      split_and!; [reflexivity | now constructor | assumption].
Qed.

(** X8.  The walk never enters a directory named in the ignore set: for
    every directory that [index_project] visits, no name on the way down
    from [project_path] is ignored, and [root] is [project_path] joined
    with these names one by one. *)
Theorem walk_prunes_ignored (proj : Project) (project_path : string) (v : visit) :
  v ∈ project_walk proj project_path →
  Forall (fun d => str_in d ignored = false) (below v)
  ∧ root v = fold_left os_path_join (below v) project_path.
Proof.
  intros Hin. unfold project_walk in Hin.
  apply os_walk_below in Hin as (extra & Hbelow & Hall & Hroot).
  simpl in Hbelow. subst extra. split; [| assumption].
  eapply Forall_impl; [exact Hall |].
  intros d Hd. simpl in Hd. now apply negb_true_iff in Hd.
Qed.

Lemma walk_prunes_ignored_witness :
  let v := {| root := "./src"; below := ["src"]; files := ["d.txt"] |} in
  (v ∈ project_walk example_project "./")
  ∧ Forall (fun d => str_in d ignored = false) (below v)
  ∧ root v = fold_left os_path_join (below v) "./".
Proof.
  intros v.
  assert (Hin : v ∈ project_walk example_project "./").
  { vm_compute. right. now left. }
  split; [exact Hin |].
  exact (walk_prunes_ignored example_project "./" v Hin).
Defined.

(** ** More on [search] *)

Lemma built_from_files (md : dict FileMeta) (top : list (string * pyfloat))
    (results : list SearchResult) :
  Forall2 (built_from md) top results → map file results = map fst top.
Proof.
  induction 1 as [|fs r top results (Hfile & _ & _) _ IH]; simpl; [reflexivity |].
  now rewrite Hfile, IH.
Qed.

(** X9.  When [top_k] is at least the number of stored files (each with
    metadata), [search] returns every stored path exactly once: the files
    of the results are a rearrangement of the keys of [self.embeddings]. *)
Theorem search_all_returns_every_path `{Numpy} (self : LambdaProjectIndexer)
    (query : text) (top_k : Z) (query_embedding : ndarray) :
  dict_wf (embeddings self) →
  (∀ path, path ∈ dict_keys (embeddings self) →
           is_Some (dict_get (metadata self) path)) →
  _embed_query self query = Ok query_embedding →
  Z.of_nat (length (embeddings self)) <= top_k →
  ∃ results,
    search self query top_k = Ok results
    ∧ map file results ≡ₚ dict_keys (embeddings self)
    ∧ NoDup (map file results).
Proof.
  intros Hwf Hcov Hquery Hk.
  destruct (collect_results_ok (metadata self)
              (top_files self query_embedding top_k)) as (results & Hres & Hall).
  { intros fs Hin.
    destruct (top_files_keys _ _ _ _ Hwf Hin) as (e & He & _).
    apply Hcov. unfold dict_keys. apply list_elem_of_fmap.
    exists (fst fs, e). split; [reflexivity | assumption]. }
  assert (Hperm : map file results ≡ₚ dict_keys (embeddings self)).
  { rewrite (built_from_files _ _ _ Hall). unfold top_files.
    rewrite slice_to_nonneg by lia.
    rewrite take_ge.
    2:{ rewrite sorted_reverse_length, similarities_wf, length_map by assumption. lia. }
    rewrite sorted_reverse_perm, similarities_wf by assumption.
    unfold dict_keys. rewrite map_map. simpl. reflexivity. }
  exists results. split_and!.
  - unfold search. rewrite Hquery. simpl. exact Hres.
  - exact Hperm.
  - now rewrite Hperm.
Qed.

Lemma search_all_returns_every_path_witness :
  dict_wf (embeddings example_store)
  ∧ Z.of_nat (length (embeddings example_store)) <= 5
  ∧ ∃ results,
      @search example_numpy example_store (of_string "q") 5 = Ok results
      ∧ map file results ≡ₚ dict_keys (embeddings example_store)
      ∧ NoDup (map file results).
Proof.
  assert (Hwf : dict_wf (embeddings example_store)).
  { unfold dict_wf. apply (bool_decide_unpack _). vm_compute. exact I. }
  split; [exact Hwf |]. split; [vm_compute; discriminate |].
  apply (@search_all_returns_every_path example_numpy example_store (of_string "q") 5
           [113; 1]%Q).
  - exact Hwf.
  - intros path Hin. simpl in Hin.
    repeat (apply elem_of_cons in Hin as [-> | Hin]);
      [| | | now apply elem_of_nil in Hin]; eexists; reflexivity.
  - reflexivity.
  - vm_compute. discriminate.
Defined.

(** X10.  The results for a smaller [top_k] are the first entries of the
    results for a larger one: if [search(query, k')] returns, then for
    [0 <= k <= k'] [search(query, k)] returns its first [k] entries. *)
Theorem search_prefix `{Numpy} (self : LambdaProjectIndexer) (query : text)
    (k k' : Z) (results' : list SearchResult) :
  0 <= k <= k' →
  search self query k' = Ok results' →
  search self query k = Ok (take (Z.to_nat k) results').
Proof.
  intros Hk. unfold search.
  destruct (_embed_query self query) as [q|e]; simpl; [| discriminate].
  unfold top_files. rewrite !slice_to_nonneg by lia.
  intros Hres.
  replace (take (Z.to_nat k) (sorted_reverse snd (similarities q (embeddings self))))
    with (take (Z.to_nat k)
            (take (Z.to_nat k') (sorted_reverse snd (similarities q (embeddings self))))).
  - now apply collect_results_take.
  - rewrite take_take. f_equal. lia.
Qed.

Lemma search_prefix_witness :
  0 <= 1 <= 3
  ∧ (∃ results', @search example_numpy example_store (of_string "q") 3 = Ok results'
                 ∧ @search example_numpy example_store (of_string "q") 1
                     = Ok (take (Z.to_nat 1) results')).
Proof.
  split; [lia |].
  destruct (@search example_numpy example_store (of_string "q") 3) as [results'|e] eqn:E;
    [| vm_compute in E; discriminate E].
  exists results'. split; [reflexivity |].
  apply (@search_prefix example_numpy example_store (of_string "q") 1 3 results');
    [lia | exact E].
Defined.

(** X11.  On an index without embeddings [search] returns the empty
    sequence for every [top_k], whatever the metadata mapping holds. *)
Theorem search_empty_index `{Numpy} (self : LambdaProjectIndexer) (query : text)
    (top_k : Z) (query_embedding : ndarray) :
  embeddings self = [] →
  _embed_query self query = Ok query_embedding →
  search self query top_k = Ok [].
Proof.
  intros Hempty Hquery.
  assert (Htop : top_files self query_embedding top_k = []).
  { unfold top_files, slice_to. rewrite Hempty.
    change (sorted_reverse snd (similarities query_embedding []))
      with (@nil (string * pyfloat)).
    destruct (0 <=? top_k); apply take_nil. }
  unfold search. rewrite Hquery. simpl. now rewrite Htop.
Qed.

Lemma search_empty_index_witness :
  embeddings (LambdaProjectIndexer_init example_model) = []
  ∧ @search example_numpy (LambdaProjectIndexer_init example_model) (of_string "q") 5
      = Ok []
  ∧ @search example_numpy (LambdaProjectIndexer_init example_model) (of_string "q") (-2)
      = Ok [].
Proof.
  split; [reflexivity |]. split.
  - apply (@search_empty_index example_numpy (LambdaProjectIndexer_init example_model)
             (of_string "q") 5 [113; 1]%Q); reflexivity.
  - apply (@search_empty_index example_numpy (LambdaProjectIndexer_init example_model)
             (of_string "q") (-2) [113; 1]%Q); reflexivity.
Defined.

(** ** More on persistence *)

(** X12.  [save_index] is not atomic.  If the container cannot be written
    nothing is written; if the container is written and the metadata
    document cannot be, the call raises with the new container next to the
    old metadata document (or none). *)
Theorem save_index_failures (self : LambdaProjectIndexer) (output_path : string)
    (d : Disk) :
  (output_path +:+ "_embeddings.npz" ∈ disk_locked d →
   save_index self output_path d
     = (d, Raise (PermissionError (output_path +:+ "_embeddings.npz"))))
  ∧ (output_path +:+ "_embeddings.npz" ∉ disk_locked d →
     output_path +:+ "_metadata.json" ∈ disk_locked d →
     snd (save_index self output_path d)
       = Raise (PermissionError (output_path +:+ "_metadata.json"))
     ∧ disk_files (fst (save_index self output_path d))
         !! (output_path +:+ "_embeddings.npz")
       = Some (NpzFile (dict_of_items (embeddings self)))
     ∧ disk_files (fst (save_index self output_path d))
         !! (output_path +:+ "_metadata.json")
       = disk_files d !! (output_path +:+ "_metadata.json")).
Proof.
  unfold save_index, write_file. split.
  - intros Hlocked. now rewrite bool_decide_eq_true_2.
  - intros Hfree Hlocked.
    rewrite (bool_decide_eq_false_2 _ Hfree). simpl.
    rewrite (bool_decide_eq_true_2 _ Hlocked). simpl. split_and!.
    + reflexivity.
    + apply lookup_insert_eq.
    + apply lookup_insert_ne. intros Heq. symmetry in Heq.
      now apply artifact_names_differ in Heq.
Qed.

Lemma save_index_failures_witness :
  ("lambda_index" +:+ "_embeddings.npz" ∉ disk_locked example_locked_disk)
  ∧ ("lambda_index" +:+ "_metadata.json" ∈ disk_locked example_locked_disk)
  ∧ snd (save_index example_store "lambda_index" example_locked_disk)
      = Raise (PermissionError ("lambda_index" +:+ "_metadata.json"))
  ∧ disk_files (fst (save_index example_store "lambda_index" example_locked_disk))
      !! ("lambda_index" +:+ "_embeddings.npz")
    = Some (NpzFile (dict_of_items (embeddings example_store)))
  ∧ disk_files (fst (save_index example_store "lambda_index" example_locked_disk))
      !! ("lambda_index" +:+ "_metadata.json")
    = disk_files example_locked_disk !! ("lambda_index" +:+ "_metadata.json").
Proof.
  assert (Hfree : "lambda_index" +:+ "_embeddings.npz" ∉ disk_locked example_locked_disk).
  { simpl. intros Hin. apply elem_of_singleton in Hin. discriminate Hin. }
  assert (Hlocked : "lambda_index" +:+ "_metadata.json" ∈ disk_locked example_locked_disk).
  { simpl. now apply elem_of_singleton. }
  split; [exact Hfree |]. split; [exact Hlocked |].
  exact (proj2 (save_index_failures example_store "lambda_index" example_locked_disk)
               Hfree Hlocked).
Defined.

(** X13.  [save_index] touches nothing but its two artifacts: every other
    path of the disk keeps its content, whether the call succeeds or
    raises. *)
Theorem save_index_frame (self : LambdaProjectIndexer) (output_path : string)
    (d : Disk) (path : string) :
  path ≠ output_path +:+ "_embeddings.npz" →
  path ≠ output_path +:+ "_metadata.json" →
  disk_files (fst (save_index self output_path d)) !! path = disk_files d !! path
  ∧ disk_locked (fst (save_index self output_path d)) = disk_locked d.
Proof.
  intros Hnpz Hjson. unfold save_index, write_file.
  destruct (bool_decide (output_path +:+ "_embeddings.npz" ∈ disk_locked d));
    simpl; [now split |].
  destruct (bool_decide (output_path +:+ "_metadata.json" ∈ disk_locked d)); simpl.
  - split; [| reflexivity]. now rewrite lookup_insert_ne.
  - split; [| reflexivity]. now rewrite !lookup_insert_ne.
Qed.

Lemma save_index_frame_witness :
  "other_embeddings.npz" ≠ "lambda_index" +:+ "_embeddings.npz"
  ∧ "other_embeddings.npz" ≠ "lambda_index" +:+ "_metadata.json"
  ∧ disk_files example_shared_disk !! "other_embeddings.npz"
    = Some (NpzFile [("x.py", [1; 1]%Q)])
  ∧ snd (save_index example_store "lambda_index" example_shared_disk) = Ok tt
  ∧ disk_files (fst (save_index example_store "lambda_index" example_shared_disk))
      !! "other_embeddings.npz"
    = disk_files example_shared_disk !! "other_embeddings.npz"
  ∧ disk_locked (fst (save_index example_store "lambda_index" example_shared_disk))
    = disk_locked example_shared_disk.
Proof.
  assert (H1 : "other_embeddings.npz" ≠ "lambda_index" +:+ "_embeddings.npz")
    by discriminate.
  assert (H2 : "other_embeddings.npz" ≠ "lambda_index" +:+ "_metadata.json")
    by discriminate.
  split; [exact H1 |]. split; [exact H2 |].
  split; [reflexivity |]. split; [reflexivity |].
  exact (save_index_frame example_store "lambda_index" example_shared_disk
           "other_embeddings.npz" H1 H2).
Defined.

(** ** More on the watcher *)

(** X14.  Once an event has started a re-index that completed, every
    event that arrives less than [reindex_delay] after it is dropped,
    whichever file it concerns and whatever the project looks like by
    then: handler, index and disk stay as the first event left them. *)
Theorem event_after_reindex_dropped (self : ProjectFileHandler)
    (event event' : FileSystemEvent) (current_time current_time' : Q)
    (proj proj' : Project) (d : Disk) :
  ¬ (current_time - last_reindex self < reindex_delay self)%Q →
  should_index (src_path event) = true →
  snd (save_index (index_project (indexer self) proj (project_path self))
                  "lambda_index" d) = Ok tt →
  (current_time' - current_time < reindex_delay self)%Q →
  trigger_reindex (fst (trigger_reindex self event current_time proj d)) event'
                  current_time' proj'
                  (snd (trigger_reindex self event current_time proj d))
    = trigger_reindex self event current_time proj d.
Proof.
  intros Hwin Hrel Hsave Hsoon.
  assert (Hfirst : float_lt (current_time - last_reindex self) (reindex_delay self)
                   = false).
  { apply not_true_is_false. intros Hlt. now apply float_lt_true in Hlt. }
  unfold trigger_reindex at 2 3 4. rewrite Hfirst, Hrel.
  destruct (save_index _ "lambda_index" d) as [d1 [[]|e]]; [| discriminate Hsave].
  simpl. unfold trigger_reindex. simpl.
  now rewrite (proj2 (float_lt_true _ _) Hsoon).
Qed.

Lemma event_after_reindex_dropped_witness :
  let event := {| src_path := "./src/d.txt"; is_directory := false |} in
  let event' := {| src_path := "./a.py"; is_directory := false |} in
  ¬ (103 - last_reindex example_handler_at_100 < reindex_delay example_handler_at_100)%Q
  ∧ (104 - 103 < reindex_delay example_handler_at_100)%Q
  ∧ trigger_reindex
      (fst (trigger_reindex example_handler_at_100 event 103 example_project
                            example_empty_disk))
      event' 104 example_project_after
      (snd (trigger_reindex example_handler_at_100 event 103 example_project
                            example_empty_disk))
    = trigger_reindex example_handler_at_100 event 103 example_project
                      example_empty_disk.
Proof.
  intros event event'.
  assert (Hwin : ¬ (103 - last_reindex example_handler_at_100
                      < reindex_delay example_handler_at_100)%Q).
  { intros Hlt. vm_compute in Hlt. discriminate Hlt. }
  assert (Hsoon : (104 - 103 < reindex_delay example_handler_at_100)%Q) by reflexivity.
  split; [exact Hwin |]. split; [exact Hsoon |].
  apply (event_after_reindex_dropped example_handler_at_100 event event' 103 104
           example_project example_project_after example_empty_disk Hwin);
    [reflexivity | vm_compute; reflexivity | exact Hsoon].
Defined.

(** ** Start-up *)

Lemma os_path_exists_true (d : Disk) (path : string) :
  os_path_exists d path = true ↔ is_Some (disk_files d !! path).
Proof. unfold os_path_exists. apply bool_decide_eq_true. Qed.

Lemma os_path_exists_false (d : Disk) (path : string) :
  os_path_exists d path = false ↔ disk_files d !! path = None.
Proof.
  unfold os_path_exists. rewrite bool_decide_eq_false, <- eq_None_not_Some.
  reflexivity.
Qed.

(** X15.  Start-up looks only at the vector container: when it exists and
    the metadata document is missing, [load_index] raises
    [FileNotFoundError] and start-up ends with it; the index is not rebuilt
    from the project. *)
Theorem startup_without_metadata (m : text → result (list ndarray)) (proj : Project)
    (project_path : string) (d : Disk) (arrays : list (string * ndarray)) :
  disk_files d !! "lambda_index_embeddings.npz" = Some (NpzFile arrays) →
  disk_files d !! "lambda_index_metadata.json" = None →
  main_startup m proj project_path d
    = (d, Raise (FileNotFoundError "lambda_index_metadata.json")).
Proof.
  intros Hnpz Hjson. unfold main_startup.
  rewrite (proj2 (os_path_exists_true d _)) by (rewrite Hnpz; eauto).
  unfold load_index, np_load, json_load.
  change ("lambda_index" +:+ "_embeddings.npz") with "lambda_index_embeddings.npz".
  change ("lambda_index" +:+ "_metadata.json") with "lambda_index_metadata.json".
  now rewrite Hnpz, Hjson.
Qed.

Lemma startup_without_metadata_witness :
  let d := {| disk_files := {["lambda_index_embeddings.npz" := NpzFile []]};
              disk_locked := ∅ |} in
  disk_files d !! "lambda_index_embeddings.npz" = Some (NpzFile [])
  ∧ disk_files d !! "lambda_index_metadata.json" = None
  ∧ main_startup example_model example_project "./" d
      = (d, Raise (FileNotFoundError "lambda_index_metadata.json")).
Proof.
  intros d. split; [reflexivity |]. split; [reflexivity |].
  apply (startup_without_metadata example_model example_project "./" d []); reflexivity.
Defined.

(** X16.  When start-up finds no container it builds the index and saves
    it; the next start-up on that disk loads exactly this index and makes
    the same handler, whatever the project has become in between: with an
    index on disk the project is not read at start-up. *)
Theorem restart_loads_saved_index (m : text → result (list ndarray))
    (proj proj' : Project) (project_path : string) (d d1 : Disk)
    (handler : ProjectFileHandler) :
  os_path_exists d "lambda_index_embeddings.npz" = false →
  main_startup m proj project_path d = (d1, Ok handler) →
  indexer handler = index_project (LambdaProjectIndexer_init m) proj project_path
  ∧ main_startup m proj' project_path d1 = (d1, Ok handler).
Proof.
  intros Hnone Hstart. unfold main_startup in Hstart. rewrite Hnone in Hstart.
  set (idx := index_project (LambdaProjectIndexer_init m) proj project_path) in *.
  destruct (save_index idx "lambda_index" d) as [d' [[]|e]] eqn:Hsave;
    [| discriminate Hstart].
  injection Hstart as -> <-.
  split; [reflexivity |].
  destruct (save_index_files _ _ _ _ Hsave) as [Hnpz Hjson].
  destruct (index_project_wf (LambdaProjectIndexer_init m) proj project_path
              (init_wf m)) as [Hwf_e Hwf_m].
  fold idx in Hwf_e, Hwf_m.
  unfold main_startup.
  change ("lambda_index" +:+ "_embeddings.npz") with "lambda_index_embeddings.npz"
    in Hnpz.
  change ("lambda_index" +:+ "_metadata.json") with "lambda_index_metadata.json"
    in Hjson.
  rewrite (proj2 (os_path_exists_true d1 _)) by (rewrite Hnpz; eauto).
  change ("lambda_index_embeddings.npz") with ("lambda_index" +:+ "_embeddings.npz")
    in Hnpz.
  change ("lambda_index_metadata.json") with ("lambda_index" +:+ "_metadata.json")
    in Hjson.
  unfold load_index, np_load, json_load.
  rewrite Hnpz, Hjson.
  do 2 f_equal. f_equal.
  apply indexer_eq; simpl.
  - subst idx. unfold index_project. now rewrite index_visits_model.
  - now rewrite !dict_of_items_id by (assumption || apply dict_of_items_wf).
  - now apply dict_of_items_id.
Qed.

Lemma restart_loads_saved_index_witness :
  os_path_exists example_empty_disk "lambda_index_embeddings.npz" = false
  ∧ ∃ d1 handler,
      main_startup example_model example_project "./" example_empty_disk
        = (d1, Ok handler)
      ∧ indexer handler
          = index_project (LambdaProjectIndexer_init example_model) example_project "./"
      ∧ main_startup example_model example_project_after "./" d1 = (d1, Ok handler).
Proof.
  split; [reflexivity |].
  destruct (main_startup example_model example_project "./" example_empty_disk)
    as [d1 [handler|e]] eqn:E; [| vm_compute in E; discriminate E].
  exists d1, handler. split; [reflexivity |].
  exact (restart_loads_saved_index example_model example_project example_project_after
           "./" example_empty_disk d1 handler eq_refl E).
Defined.

(** ** Backup and removal of the index files *)

Lemma string_app_length (a b : string) :
  String.length (a +:+ b) = (String.length a + String.length b)%nat.
Proof. induction a as [|c a IH]; simpl; [reflexivity | now rewrite IH]. Qed.

Lemma string_app_assoc (a b c : string) : (a +:+ b) +:+ c = a +:+ (b +:+ c).
Proof.
  induction a as [|x a IH]; [reflexivity |].
  change (String x ((a +:+ b) +:+ c) = String x (a +:+ (b +:+ c))).
  now f_equal.
Qed.

(** Below a backup directory, a plain file name is appended to one fixed
    prefix of at least 13 characters. *)
Lemma backup_join (stamp : string) :
  ∃ pre,
    (13 ≤ String.length pre)%nat
    ∧ ∀ name, starts_with_sep name = false →
              os_path_join ("backup_index_" +:+ stamp) name = pre +:+ name.
Proof.
  destruct (ends_with_sep ("backup_index_" +:+ stamp)) eqn:Hend.
  - exists ("backup_index_" +:+ stamp). split.
    + rewrite string_app_length. simpl. lia.
    + intros name Hname. unfold os_path_join. rewrite Hname, Hend.
      now rewrite orb_true_r.
  - exists (("backup_index_" +:+ stamp) +:+ "/"). split.
    + rewrite !string_app_length. simpl. lia.
    + intros name Hname. unfold os_path_join. rewrite Hname, Hend.
      change (String.eqb ("backup_index_" +:+ stamp) "") with false.
      cbn [orb]. symmetry. apply string_app_assoc.
Qed.

Lemma load_index_same_artifacts (self : LambdaProjectIndexer) (p p' : string)
    (d d' : Disk) (a b : artifact) :
  disk_files d !! (p +:+ "_embeddings.npz") = Some a →
  disk_files d !! (p +:+ "_metadata.json") = Some b →
  disk_files d' !! (p' +:+ "_embeddings.npz") = Some a →
  disk_files d' !! (p' +:+ "_metadata.json") = Some b →
  load_index self p' d' = load_index self p d.
Proof.
  intros Ha Hb Ha' Hb'. unfold load_index, np_load, json_load.
  now rewrite Ha, Hb, Ha', Hb'.
Qed.

(** X17.  When both index files exist and the backup completes, it returns
    the backup directory, leaves the index loadable as before, and the
    copy loads to the same index: [load_index] with the prefix
    [backup_dir/lambda_index] gives what [load_index("lambda_index")] gave
    before the backup. *)
Theorem backup_is_loadable (stamp : string) (d d' : Disk) (r : option string)
    (self : LambdaProjectIndexer) :
  os_path_exists d "lambda_index_embeddings.npz" = true →
  os_path_exists d "lambda_index_metadata.json" = true →
  backup_old_index stamp d = (d', Ok r) →
  r = Some ("backup_index_" +:+ stamp)
  ∧ load_index self "lambda_index" d' = load_index self "lambda_index" d
  ∧ load_index self (os_path_join ("backup_index_" +:+ stamp) "lambda_index") d'
      = load_index self "lambda_index" d.
Proof.
  intros Hnpz Hjson Hbackup.
  apply os_path_exists_true in Hnpz as Hnpz'. destruct Hnpz' as [a Ha].
  apply os_path_exists_true in Hjson as Hjson'. destruct Hjson' as [b Hb].
  destruct (backup_join stamp) as (pre & Hpre & Hjoin).
  pose proof (Hjoin "lambda_index_embeddings.npz" eq_refl) as Hj1.
  pose proof (Hjoin "lambda_index_metadata.json" eq_refl) as Hj2.
  pose proof (Hjoin "lambda_index" eq_refl) as Hj0.
  assert (Hlen : ∀ name other : string,
            (String.length other ≤ 27)%nat → (26 ≤ String.length name)%nat →
            pre +:+ name ≠ other).
  { intros name other Ho Hn Heq. apply (f_equal String.length) in Heq.
    rewrite string_app_length in Heq. lia. }
  unfold backup_old_index, backup_loop, index_artifacts, shutil_copy2, write_file
    in Hbackup.
  rewrite Hnpz, Ha, Hj1 in Hbackup.
  destruct (bool_decide (pre +:+ "lambda_index_embeddings.npz" ∈ disk_locked d));
    [discriminate Hbackup |].
  assert (Hb1 : disk_files
                  {| disk_files := <[pre +:+ "lambda_index_embeddings.npz" := a]>
                                     (disk_files d);
                     disk_locked := disk_locked d |}
                  !! "lambda_index_metadata.json" = Some b).
  { simpl. rewrite lookup_insert_ne; [assumption |]. apply Hlen; simpl; lia. }
  rewrite (proj2 (os_path_exists_true _ _)) in Hbackup by (rewrite Hb1; eauto).
  rewrite Hb1, Hj2 in Hbackup. simpl in Hbackup.
  destruct (bool_decide (pre +:+ "lambda_index_metadata.json" ∈ disk_locked d));
    [discriminate Hbackup |].
  injection Hbackup as <- <-.
  split; [reflexivity |]. split.
  - apply (load_index_same_artifacts self "lambda_index" "lambda_index" _ _ a b);
      try assumption; simpl.
    + rewrite !lookup_insert_ne; [assumption | |]; apply Hlen; simpl; lia.
    + rewrite !lookup_insert_ne; [assumption | |]; apply Hlen; simpl; lia.
  - rewrite Hj0.
    apply (load_index_same_artifacts self "lambda_index" (pre +:+ "lambda_index") _ _ a b);
      try assumption; simpl; rewrite string_app_assoc; simpl.
    + rewrite lookup_insert_ne; [apply lookup_insert_eq |].
      intros Heq. apply append_inj in Heq. discriminate Heq.
    + apply lookup_insert_eq.
Qed.

Lemma backup_is_loadable_witness :
  let d := fst (save_index example_store "lambda_index" example_empty_disk) in
  os_path_exists d "lambda_index_embeddings.npz" = true
  ∧ os_path_exists d "lambda_index_metadata.json" = true
  ∧ ∃ d',
      backup_old_index "20250101_120000" d
        = (d', Ok (Some "backup_index_20250101_120000"))
      ∧ load_index example_mismatched "lambda_index" d'
          = load_index example_mismatched "lambda_index" d
      ∧ load_index example_mismatched
                   (os_path_join ("backup_index_" +:+ "20250101_120000") "lambda_index") d'
          = load_index example_mismatched "lambda_index" d.
Proof.
  intros d.
  assert (H1 : os_path_exists d "lambda_index_embeddings.npz" = true) by reflexivity.
  assert (H2 : os_path_exists d "lambda_index_metadata.json" = true) by reflexivity.
  split; [exact H1 |]. split; [exact H2 |].
  destruct (backup_old_index "20250101_120000" d) as [d' [r|e]] eqn:E;
    [| vm_compute in E; discriminate E].
  destruct (backup_is_loadable "20250101_120000" d d' r example_mismatched H1 H2 E)
    as (-> & Hsame & Hcopy).
  exists d'. split_and!; [reflexivity | exact Hsame | exact Hcopy].
Defined.

(** X18.  After [clean_old_index] neither index file exists, every other
    file is as it was, and [load_index("lambda_index")] raises
    [FileNotFoundError] for the container. *)
Theorem clean_removes_index (d : Disk) (self : LambdaProjectIndexer) :
  disk_files (clean_old_index d) !! "lambda_index_embeddings.npz" = None
  ∧ disk_files (clean_old_index d) !! "lambda_index_metadata.json" = None
  ∧ (∀ path, path ∉ index_artifacts →
             disk_files (clean_old_index d) !! path = disk_files d !! path)
  ∧ load_index self "lambda_index" (clean_old_index d)
      = (self, Raise (FileNotFoundError "lambda_index_embeddings.npz")).
Proof.
  assert (Hnpz : disk_files (clean_old_index d) !! "lambda_index_embeddings.npz" = None).
  { unfold clean_old_index, index_artifacts. simpl.
    destruct (os_path_exists d "lambda_index_embeddings.npz") eqn:E1.
    - destruct (os_path_exists (os_remove d _) "lambda_index_metadata.json"); simpl;
        [rewrite lookup_delete_ne by discriminate |]; apply lookup_delete_eq.
    - apply os_path_exists_false in E1.
      destruct (os_path_exists d "lambda_index_metadata.json"); simpl;
        [rewrite lookup_delete_ne by discriminate |]; assumption. }
  split_and!.
  - exact Hnpz.
  - unfold clean_old_index, index_artifacts. simpl.
    match goal with
    | |- disk_files (if os_path_exists ?x ?f then _ else _) !! _ = _ =>
        destruct (os_path_exists x f) eqn:E2
    end.
    + apply lookup_delete_eq.
    + now apply os_path_exists_false in E2.
  - intros path Hpath. unfold index_artifacts in Hpath.
    apply not_elem_of_cons in Hpath as [Hp1 Hpath].
    apply not_elem_of_cons in Hpath as [Hp2 _].
    unfold clean_old_index, index_artifacts. simpl.
    destruct (os_path_exists d "lambda_index_embeddings.npz");
      match goal with
      | |- disk_files (if os_path_exists ?x ?f then _ else _) !! _ = _ =>
          destruct (os_path_exists x f)
      end; simpl; rewrite ?lookup_delete_ne by congruence; reflexivity.
  - unfold load_index, np_load.
    change ("lambda_index" +:+ "_embeddings.npz") with "lambda_index_embeddings.npz".
    now rewrite Hnpz.
Qed.

Lemma clean_removes_index_witness :
  let d := fst (save_index example_store "lambda_index" example_empty_disk) in
  os_path_exists d "lambda_index_embeddings.npz" = true
  ∧ ("notes.txt" ∉ index_artifacts)
  ∧ disk_files (clean_old_index d) !! "lambda_index_embeddings.npz" = None
  ∧ disk_files (clean_old_index d) !! "notes.txt" = disk_files d !! "notes.txt"
  ∧ load_index example_store "lambda_index" (clean_old_index d)
      = (example_store, Raise (FileNotFoundError "lambda_index_embeddings.npz")).
Proof.
  intros d.
  assert (Hother : "notes.txt" ∉ index_artifacts).
  { intros Hin. unfold index_artifacts in Hin.
    repeat (apply elem_of_cons in Hin as [Heq | Hin]; [discriminate Heq |]).
    now apply elem_of_nil in Hin. }
  destruct (clean_removes_index d example_store) as (Hnpz & _ & Hframe & Hload).
  split_and!; [reflexivity | exact Hother | exact Hnpz | exact (Hframe _ Hother)
              | exact Hload].
Defined.

(** ** The device recommendation *)

Lemma str_in_elem (x : string) (xs : list string) : str_in x xs = true ↔ x ∈ xs.
Proof.
  unfold str_in. rewrite existsb_exists. split.
  - intros (y & Hy & Heq). apply String.eqb_eq in Heq as ->.
    now apply list_elem_of_In.
  - intros Hin. exists x. split; [now apply list_elem_of_In | apply String.eqb_refl].
Qed.

(** X19.  Whatever devices are detected, the recommendation never puts the
    embeddings on the LM Studio device unless there is neither a GPU nor an
    NPU (both are then the CPU); the NPU is recommended only if it was
    detected; [GPU.1] is recommended exactly when at least two devices
    start with [GPU], and then also when an NPU is present. *)
Theorem recommendation_devices (devices : list string) :
  let n := length (List.filter (String.prefix "GPU") devices) in
  let config := recommend_configuration (detect_hardware devices) in
  (embedding_device config = "NPU" → "NPU" ∈ devices)
  ∧ (embedding_device config = "GPU.1" ↔ (2 ≤ n)%nat)
  ∧ (lm_studio_gpu config = "CPU" ↔ n = 0%nat)
  ∧ (embedding_device config = lm_studio_gpu config ↔ n = 0%nat ∧ "NPU" ∉ devices).
Proof.
  intros n config. subst config.
  unfold recommend_configuration, detect_hardware. cbn [gpu_count has_npu]. fold n.
  unfold not. rewrite <- (str_in_elem "NPU" devices).
  destruct (2 <=? n)%nat eqn:E2; [apply Nat.leb_le in E2 | apply Nat.leb_gt in E2].
  { cbn [embedding_device lm_studio_gpu]. split_and!.
    - intros Heq. discriminate Heq.
    - split; [intros _; exact E2 | reflexivity].
    - split; [intros Heq; discriminate Heq | intros ->; lia].
    - split; [intros Heq; discriminate Heq | intros [-> _]; lia]. }
  destruct (n =? 1)%nat eqn:E1; [apply Nat.eqb_eq in E1 | apply Nat.eqb_neq in E1].
  { destruct (str_in "NPU" devices); cbn [embedding_device lm_studio_gpu]; split_and!.
    - reflexivity.
    - split; [intros Heq; discriminate Heq | lia].
    - split; [intros Heq; discriminate Heq | lia].
    - split; [intros Heq; discriminate Heq | intros [-> _]; lia].
    - intros Heq. discriminate Heq.
    - split; [intros Heq; discriminate Heq | lia].
    - split; [intros Heq; discriminate Heq | lia].
    - split; [intros Heq; discriminate Heq | intros [-> _]; lia]. }
  destruct (str_in "NPU" devices); cbn [embedding_device lm_studio_gpu]; split_and!.
  - reflexivity.
  - split; [intros Heq; discriminate Heq | lia].
  - split; [intros _; lia | reflexivity].
  - split; [intros Heq; discriminate Heq | intros [_ Hno]; now destruct Hno].
  - intros Heq. discriminate Heq.
  - split; [intros Heq; discriminate Heq | lia].
  - split; [intros _; lia | reflexivity].
  - split; [intros _; split; [lia | intros Heq; discriminate Heq] | reflexivity].
Qed.

Lemma recommendation_devices_witness :
  let devices := ["CPU"; "GPU.0"; "GPU.1"; "NPU"] in
  let config := recommend_configuration (detect_hardware devices) in
  (2 ≤ length (List.filter (String.prefix "GPU") devices))%nat
  ∧ embedding_device config = "GPU.1"
  ∧ lm_studio_gpu config = "GPU.0"
  ∧ (embedding_device (recommend_configuration (detect_hardware ["CPU"; "NPU"])) = "NPU"
     → "NPU" ∈ ["CPU"; "NPU"]).
Proof.
  intros devices config.
  assert (Hn : (2 ≤ length (List.filter (String.prefix "GPU") devices))%nat)
    by (vm_compute; lia).
  split; [exact Hn |]. split.
  - exact (proj2 (proj1 (proj2 (recommendation_devices devices))) Hn).
  - split; [reflexivity |].
    exact (proj1 (recommendation_devices ["CPU"; "NPU"])).
Defined.

(** ** More on the loop of [index_project] *)

Lemma dict_update_get_all {V} (d : dict V) (ws : list (string * V)) (k : string) (v : V) :
  k ∈ map fst ws →
  (∀ v', (k, v') ∈ ws → v' = v) →
  dict_get (dict_update d ws) k = Some v.
Proof.
  revert d. induction ws as [|[k' v'] ws IH]; intros d Hin Hall; simpl in Hin.
  - now apply elem_of_nil in Hin.
  - rewrite dict_update_cons.
    destruct (decide (k ∈ map fst ws)) as [Hlater | Hnot].
    + apply IH; [assumption |]. intros v'' Hv''. apply Hall. now right.
    + apply elem_of_cons in Hin as [-> | Hin]; [| contradiction].
      rewrite dict_update_get_notin by assumption.
      rewrite dict_get_set_eq. f_equal. apply Hall. now left.
Qed.

(** X20.  When the loop of [index_project] reaches a file whose embedding
    raises and the message that reports the failure is printed, the
    failure is caught: the step leaves the index exactly as it was and
    raises nothing, and the loop goes on from that same state with the
    files after it in the directory and then with the directories after
    it. *)
Theorem printed_failure_is_skipped (print : message → result unit)
    (self : LambdaProjectIndexer) (proj : Project) (project_path : string)
    (before after : list visit) (v : visit) (earlier later : list string)
    (name : string) (e : exn) (s reached : LambdaProjectIndexer) :
  project_walk proj project_path = before ++ v :: after →
  files v = earlier ++ name :: later →
  WithPrints.index_visits print proj before self = (s, Ok tt) →
  WithPrints.index_files print proj v earlier s = (reached, Ok tt) →
  embed_file reached proj (os_path_join (root v) name) = Raise e →
  print (Failed (os_path_join (root v) name) e) = Ok tt →
  WithPrints.index_file print proj v reached name = (reached, Ok tt)
  ∧ WithPrints.index_project print self proj project_path
    = match WithPrints.index_files print proj v later reached with
      | (s', Ok _) => WithPrints.index_visits print proj after s'
      | (s', Raise e') => (s', Raise e')
      end.
Proof.
  intros Hwalk Hfiles Hbefore Hearlier Hfail Hprint.
  assert (Hstep : WithPrints.index_file print proj v reached name = (reached, Ok tt)).
  { unfold WithPrints.index_file. rewrite Hfail, Hprint.
    now destruct (str_in _ extensions). }
  split; [exact Hstep |].
  unfold WithPrints.index_project.
  rewrite Hwalk, print_index_visits_app, Hbefore.
  cbn [WithPrints.index_visits].
  rewrite Hfiles, print_index_files_app, Hearlier.
  cbn [WithPrints.index_files]. rewrite Hstep.
  reflexivity.
Qed.

Lemma printed_failure_is_skipped_witness :
  let self := LambdaProjectIndexer_init example_model in
  let v := {| root := "./"; below := []; files := ["a.py"; "b.md"; "c.bin"] |} in
  let after := [{| root := "./src"; below := ["src"]; files := ["d.txt"] |}] in
  let reached := index_file example_project v self "a.py" in
  project_walk example_project "./" = [] ++ v :: after
  ∧ embed_file reached example_project (os_path_join "./" "b.md")
      = Raise (PermissionError "./b.md")
  ∧ WithPrints.index_file example_stdout example_project v reached "b.md"
      = (reached, Ok tt)
  ∧ WithPrints.index_project example_stdout self example_project "./"
      = match WithPrints.index_files example_stdout example_project v ["c.bin"] reached with
        | (s', Ok _) => WithPrints.index_visits example_stdout example_project after s'
        | (s', Raise e') => (s', Raise e')
        end
  ∧ snd (WithPrints.index_project example_stdout self example_project "./") = Ok tt
  ∧ dict_keys (embeddings (fst (WithPrints.index_project example_stdout self
                                  example_project "./")))
      = ["a.py"; "src/d.txt"].
Proof.
  intros self v after reached.
  assert (Hwalk : project_walk example_project "./" = [] ++ v :: after) by reflexivity.
  assert (Hfail : embed_file reached example_project (os_path_join (root v) "b.md")
                    = Raise (PermissionError "./b.md")) by reflexivity.
  destruct (printed_failure_is_skipped example_stdout self example_project "./"
              [] after v ["a.py"] ["c.bin"] "b.md" (PermissionError "./b.md")
              self reached Hwalk eq_refl eq_refl) as [Hstep Hrest];
    [vm_compute; reflexivity | exact Hfail | reflexivity |].
  split_and!.
  - exact Hwalk.
  - exact Hfail.
  - exact Hstep.
  - exact Hrest.
  - vm_compute. reflexivity.
  - vm_compute. reflexivity.
Defined.

(** X21.  When [index_project] returns, a listed file with an indexed
    extension whose embedding and size are obtained holds exactly its own
    embedding and its own metadata in the index, whatever failed around
    it, provided no other listed file has its relative path. *)
Theorem indexed_file_holds_its_embedding (print : message → result unit)
    (self final : LambdaProjectIndexer) (proj : Project) (project_path : string)
    (v : visit) (name : string) (emb : ndarray) (sz : Z) :
  WithPrints.index_project print self proj project_path = (final, Ok tt) →
  v ∈ project_walk proj project_path →
  name ∈ files v →
  str_in (path_suffix name) extensions = true →
  embed_file self proj (os_path_join (root v) name) = Ok emb →
  getsize proj (os_path_join (root v) name) = Ok sz →
  (∀ v' name',
     v' ∈ project_walk proj project_path → name' ∈ files v' →
     relpath_below (below v') name' = relpath_below (below v) name →
     root v' = root v ∧ name' = name) →
  dict_get (embeddings final) (relpath_below (below v) name) = Some emb
  ∧ dict_get (metadata final) (relpath_below (below v) name)
    = Some {| absolute_path := os_path_join (root v) name;
              extension := path_suffix name;
              size := sz |}.
Proof.
  intros Hrun Hv Hname Hext Hemb Hsz Hsame.
  apply print_index_visits_ok in Hrun. subst final.
  destruct (index_visits_update proj self (project_walk proj project_path) self eq_refl)
    as [-> ->].
  split.
  - apply dict_update_get_all.
    + apply list_elem_of_fmap. exists (relpath_below (below v) name, emb).
      split; [reflexivity |]. apply emb_writes_elem. now exists v, name.
    + intros emb' Hin.
      apply emb_writes_elem in Hin as (v' & name' & Hv' & Hname' & _ & Hemb' & Heq).
      destruct (Hsame v' name' Hv' Hname') as [Hroot ->]; [now symmetry |].
      rewrite Hroot in Hemb'. congruence.
  - apply dict_update_get_all.
    + apply list_elem_of_fmap.
      eexists (relpath_below (below v) name, _).
      split; [reflexivity |]. apply meta_writes_elem.
      exists v, name, emb, sz. now split_and!.
    + intros m Hin.
      apply meta_writes_elem in Hin
        as (v' & name' & emb' & sz' & Hv' & Hname' & _ & _ & Hsz' & Heq & ->).
      destruct (Hsame v' name' Hv' Hname') as [Hroot ->]; [now symmetry |].
      rewrite Hroot in Hsz' |- *. congruence.
Qed.

Lemma indexed_file_holds_its_embedding_witness :
  let self := LambdaProjectIndexer_init example_model in
  let v := {| root := "./src"; below := ["src"]; files := ["d.txt"] |} in
  let emb := np_mean_axis0 [np_mean_axis0
               (map (fun c => [inject_Z (Z.of_N c); 1%Q]) (of_string "./src/d.txt"))] in
  snd (WithPrints.index_project example_stdout self example_project "./") = Ok tt
  ∧ (v ∈ project_walk example_project "./")
  ∧ dict_get (embeddings (fst (WithPrints.index_project example_stdout self
                                 example_project "./"))) "src/d.txt" = Some emb
  ∧ dict_get (metadata (fst (WithPrints.index_project example_stdout self
                               example_project "./"))) "src/d.txt"
    = Some {| absolute_path := "./src/d.txt"; extension := ".txt"; size := 10 |}.
Proof.
  intros self v emb.
  assert (Hv : v ∈ project_walk example_project "./") by (vm_compute; right; now left).
  split; [vm_compute; reflexivity |]. split; [exact Hv |].
  apply (indexed_file_holds_its_embedding example_stdout self
           (fst (WithPrints.index_project example_stdout self example_project "./"))
           example_project "./" v "d.txt" emb 10);
    [vm_compute; reflexivity | exact Hv | now left | reflexivity | reflexivity
     | reflexivity |].
  intros v' name' Hv' Hname' Heq.
  vm_compute in Hv'.
  apply elem_of_cons in Hv' as [-> | Hv'].
  - simpl in Hname'.
    repeat (apply elem_of_cons in Hname' as [-> | Hname']);
      [discriminate Heq | discriminate Heq | discriminate Heq
       | now apply elem_of_nil in Hname'].
  - apply list_elem_of_singleton in Hv' as ->.
    apply list_elem_of_singleton in Hname' as ->. now split.
Defined.
